(** * Sentiment analyzer: normalization cache, rule chain and decision engine

    A shallow embedding of [SentimentAnalyzer] from [app.py]:
    [preprocess_text], [_expand_slang_and_idioms], [_detect_sarcasm],
    [_handle_negation], [_get_enhanced_sentiment] and [analyze_sentiment].

    Modelling conventions.
    - A Python [str] is a [string]; a character is a code point below 256
      (the ASCII range plus Latin-1), which covers every character the
      analyzer's tables and patterns mention.
    - Python floats are exact rationals ([Q]); [round(x, n)] is
      round-half-to-even at [n] decimals.  Binary rounding error of the
      float arithmetic is not modelled.
    - The preprocessing cache is a Python [dict], which iterates in insertion
      order: an association list, oldest entry first.
    - NLTK ([word_tokenize], the WordNet lemmatizer, the stop-word list and
      the VADER scorer) is not part of the repository: the analyzer is
      parameterised by these four functions. *)

From Stdlib Require Import Bool Arith List ZArith QArith Qround Qabs Lia Lqa.
From Stdlib Require Import String Ascii DecimalString Permutation.
Import ListNotations.
Close Scope Q_scope.
Open Scope string_scope.

(** ** Python string primitives *)

Module Py.

Definition ord (c : ascii) : nat := nat_of_ascii c.

Definition between (lo hi n : nat) : bool := ((lo <=? n) && (n <=? hi))%nat.

(** [c.isupper()] for code points below 256: A-Z and the Latin-1 capitals. *)
Definition is_upper (c : ascii) : bool :=
  between 65 90 (ord c) || (between 192 222 (ord c) && negb (ord c =? 215)%nat).

Definition lower_char (c : ascii) : ascii :=
  if is_upper c then ascii_of_nat (ord c + 32) else c.

(** [s.lower()] *)
Fixpoint lower (s : string) : string :=
  match s with
  | EmptyString => EmptyString
  | String c s' => String (lower_char c) (lower s')
  end.

(** Whitespace as [str.isspace] and the regex class [\s] see it. *)
Definition is_space (c : ascii) : bool :=
  between 9 13 (ord c) || between 28 32 (ord c)
  || (ord c =? 133)%nat || (ord c =? 160)%nat.

(** [s.startswith(p)] *)
Fixpoint startswith (p s : string) : bool :=
  match p, s with
  | EmptyString, _ => true
  | String _ _, EmptyString => false
  | String a p', String b s' => Ascii.eqb a b && startswith p' s'
  end.

(** [sub in s] *)
Fixpoint contains (sub s : string) : bool :=
  startswith sub s ||
  match s with
  | EmptyString => false
  | String _ s' => contains sub s'
  end.

(** [s[n:]] *)
Fixpoint slice_from (n : nat) (s : string) : string :=
  match n, s with
  | O, _ => s
  | _, EmptyString => EmptyString
  | S n', String _ s' => slice_from n' s'
  end.

(** [s[:n]] *)
Fixpoint slice_to (n : nat) (s : string) : string :=
  match n, s with
  | O, _ => EmptyString
  | _, EmptyString => EmptyString
  | S n', String c s' => String c (slice_to n' s')
  end.

(** Leftmost, non-overlapping substitution, the scan of [re.sub] and of
    [str.replace]: [m s] is the length of the match anchored at the head of
    [s], if any.  [skip] counts the characters of the current match that are
    still to be dropped.  None of the matchers used below matches the empty
    string. *)
Fixpoint sub_from (m : string -> option nat) (repl : string)
    (skip : nat) (s : string) : string :=
  match s with
  | EmptyString => EmptyString
  | String c s' =>
      match skip with
      | S k => sub_from m repl k s'
      | O =>
          match m s with
          | Some (S n) => repl ++ sub_from m repl n s'
          | _ => String c (sub_from m repl 0 s')
          end
      end
  end.

Definition sub (m : string -> option nat) (repl s : string) : string :=
  sub_from m repl 0 s.

Definition literal (old : string) (s : string) : option nat :=
  if startswith old s then Some (length old) else None.

(** [s.replace(old, new)]; with an empty [old] Python puts [new] around
    every character. *)
Fixpoint interleave (new s : string) : string :=
  match s with
  | EmptyString => new
  | String c s' => new ++ String c (interleave new s')
  end.

Definition replace (old new s : string) : string :=
  match old with
  | EmptyString => interleave new s
  | _ => sub (literal old) new s
  end.

Fixpoint drop_while (p : ascii -> bool) (s : string) : string :=
  match s with
  | EmptyString => EmptyString
  | String c s' => if p c then drop_while p s' else s
  end.

Fixpoint span_len (p : ascii -> bool) (s : string) : nat :=
  match s with
  | EmptyString => O
  | String c s' => if p c then S (span_len p s') else O
  end.

Fixpoint rstrip (s : string) : string :=
  match s with
  | EmptyString => EmptyString
  | String c s' =>
      match rstrip s' with
      | EmptyString => if is_space c then EmptyString else String c EmptyString
      | r => String c r
      end
  end.

(** [s.strip()] *)
Definition strip (s : string) : string := rstrip (drop_while is_space s).

(** [sep.join(parts)] *)
Fixpoint join (sep : string) (parts : list string) : string :=
  match parts with
  | [] => EmptyString
  | [p] => p
  | p :: rest => p ++ sep ++ join sep rest
  end.

(** [s.split()]: maximal runs of non-whitespace characters. *)
Fixpoint split_from (cur : string) (s : string) : list string :=
  match s with
  | EmptyString => match cur with EmptyString => [] | _ => [cur] end
  | String c s' =>
      if is_space c
      then match cur with
           | EmptyString => split_from EmptyString s'
           | _ => cur :: split_from EmptyString s'
           end
      else split_from (cur ++ String c EmptyString) s'
  end.

Definition split (s : string) : list string := split_from EmptyString s.

End Py.

(** ** The compiled patterns of [__init__]

    Each substitution pattern is given by its anchored matcher (the length of
    the match at the head of the text); [Py.sub] does the scan. *)

Module Re.

(** One character of the repeated group of [url_pattern]:
    [[a-zA-Z]|[0-9]|[$-_@.&+]|[!*\\(\\),]].  The range [$-_] runs from code
    point 36 to 95, so it already contains [%]: the last alternative,
    [%] and two hex digits, never adds a match the others do not give. *)
Definition url_char (c : ascii) : bool :=
  let n := Py.ord c in
  (Py.between 97 122 n || Py.between 65 90 n
   || Py.between 48 57 n
   || Py.between 36 95 n || (n =? 64) || (n =? 46) || (n =? 38) || (n =? 43)
   || (n =? 33) || (n =? 42) || (n =? 92) || (n =? 40) || (n =? 41)
   || (n =? 44))%nat.

(** [://] followed by one or more [url_char], taken greedily. *)
Definition url_tail (r : string) : option nat :=
  if Py.startswith "://" r then
    match Py.span_len url_char (Py.slice_from 3 r) with
    | O => None
    | S n => Some (3 + S n)
    end
  else None.

(** [http[s]?://(...)+]: the optional [s] is tried first. *)
Definition url_pattern (s : string) : option nat :=
  if Py.startswith "http" s then
    let r := Py.slice_from 4 s in
    match (if Py.startswith "s" r then url_tail (Py.slice_from 1 r) else None) with
    | Some n => Some (4 + 1 + n)
    | None =>
        match url_tail r with
        | Some n => Some (4 + n)
        | None => None
        end
    end
  else None.

Definition non_space (c : ascii) : bool := negb (Py.is_space c).

(** An [@] that is followed by at least one more character. *)
Fixpoint at_then_more (s : string) : bool :=
  match s with
  | String c (String _ _ as s') => Ascii.eqb c "@" || at_then_more s'
  | _ => false
  end.

(** [\S+@\S+]: the first [\S+] takes the whole run of non-space characters
    and gives back down to an [@] that leaves it at least one character and
    has at least one after it; the second [\S+] then runs to the end of the
    run. *)
Definition email_pattern (s : string) : option nat :=
  let n := Py.span_len non_space s in
  match Py.slice_to n s with
  | String _ rest => if at_then_more rest then Some n else None
  | EmptyString => None
  end.

(** The class negated in [special_chars_pattern]:
    [a-zA-Z0-9\s\.\!\?\,\;\:\-\(\)]. *)
Definition plain_char (c : ascii) : bool :=
  let n := Py.ord c in
  (Py.between 97 122 n || Py.between 65 90 n || Py.between 48 57 n
   || Py.is_space c
   || (n =? 46) || (n =? 33) || (n =? 63) || (n =? 44) || (n =? 59)
   || (n =? 58) || (n =? 45) || (n =? 40) || (n =? 41))%nat.

Definition special_chars_pattern (s : string) : option nat :=
  match s with
  | String c _ => if plain_char c then None else Some 1
  | EmptyString => None
  end.

(** [\s+] *)
Definition whitespace_pattern (s : string) : option nat :=
  match Py.span_len Py.is_space s with
  | O => None
  | n => Some n
  end.

(** The patterns used with [search]: a literal, or two literals with [.*]
    between them.  All are compiled with [re.IGNORECASE]. *)
Inductive pattern : Type :=
  | Lit (a : string)
  | DotStar (a b : string).

(** The part of [s] that [.*] can cross: [.] matches anything but a newline. *)
Fixpoint until_newline (s : string) : string :=
  match s with
  | EmptyString => EmptyString
  | String c s' =>
      if (Py.ord c =? 10)%nat then EmptyString else String c (until_newline s')
  end.

Fixpoint search_dotstar (a b : string) (s : string) : bool :=
  (Py.startswith a s
   && Py.contains b (until_newline (Py.slice_from (length a) s)))
  || match s with
     | EmptyString => false
     | String _ s' => search_dotstar a b s'
     end.

(** [pattern.search(text)] as a truth value; case is ignored by comparing the
    lower-case forms. *)
Definition search (p : pattern) (text : string) : bool :=
  let t := Py.lower text in
  match p with
  | Lit a => Py.contains (Py.lower a) t
  | DotStar a b => search_dotstar (Py.lower a) (Py.lower b) t
  end.

End Re.

(** ** The cache: a [dict] in insertion order *)

Module Dict.

Definition t : Type := list (string * string).

(** [d.get(k)] / [d[k]] *)
Fixpoint get (k : string) (d : t) : option string :=
  match d with
  | [] => None
  | (k', v) :: d' => if String.eqb k' k then Some v else get k d'
  end.

(** [k in d] *)
Definition mem (k : string) (d : t) : bool :=
  match get k d with
  | Some _ => true
  | None => false
  end.

(** [d[k] = v]: an existing key keeps its place, a new key goes last. *)
Fixpoint set (k v : string) (d : t) : t :=
  match d with
  | [] => [(k, v)]
  | (k', v') :: d' =>
      if String.eqb k' k then (k, v) :: d' else (k', v') :: set k v d'
  end.

(** [d.pop(next(iter(d)))]: drops the oldest entry.  On an empty dict Python
    raises [StopIteration]; the analyzer only pops a dict that holds at least
    [_max_cache_size] entries. *)
Definition pop_first (d : t) : t := List.tl d.

Definition keys (d : t) : list string := List.map fst d.

End Dict.

(** ** Numbers *)

(** The integer nearest to [x], ties to the even one. *)
Definition round_half_even (x : Q) : Z :=
  let f := Qfloor x in
  match Qcompare (x - inject_Z f)%Q (1 # 2)%Q with
  | Lt => f
  | Gt => (f + 1)%Z
  | Eq => if Z.even f then f else (f + 1)%Z
  end.

(** [round(x, ndigits)] *)
Definition py_round (x : Q) (ndigits : nat) : Q :=
  Qmake (round_half_even (x * inject_Z (10 ^ Z.of_nat ndigits))%Q)
        (Z.to_pos (10 ^ Z.of_nat ndigits)).

(** ** Data model *)

(** The values of [sentiment_label]. *)
Inductive label : Type := negative | neutral | positive | mixed.

(** What a caller can pass as [text]: a string or something else. *)
Inductive py_value : Type :=
  | PyNone
  | PyBool (b : bool)
  | PyInt (z : Z)
  | PyStr (s : string).

(** [bool(v)] *)
Definition truthy (v : py_value) : bool :=
  match v with
  | PyNone => false
  | PyBool b => b
  | PyInt z => negb (z =? 0)%Z
  | PyStr s => negb (s =? "")
  end.

(** [isinstance(v, str)] *)
Definition isinstance_str (v : py_value) : bool :=
  match v with
  | PyStr _ => true
  | _ => false
  end.

(** What [polarity_scores] returns. *)
Record Scores : Type := mkScores {
  score_neg : Q;
  score_neu : Q;
  score_pos : Q;
  score_compound : Q
}.

(** The dict returned by [analyze_sentiment].  The two text keys are absent
    from one of the early returns: an absent key is [None]. *)
Record SentimentResult : Type := mkResult {
  neg : Q;
  neu : Q;
  pos : Q;
  compound : Q;
  sentiment_label : label;
  confidence : Q;
  original_text : option py_value;
  processed_text : option string
}.

(** ** Tables of [__init__] *)

Definition double_negation_patterns : list (string * string) :=
  [ ("not bad", "good"); ("not terrible", "good"); ("not awful", "good");
    ("don't dislike", "like"); ("not ungood", "good");
    ("not unhappy", "happy") ].

(** [negation_words] is a Python set; it is listed in source order (see
    [negation_loop] for why the order does not matter). *)
Definition negation_words : list string :=
  [ "not"; "no"; "never"; "nothing"; "nowhere"; "noone"; "none"; "not a";
    "isn't"; "aren't"; "wasn't"; "weren't"; "don't"; "doesn't"; "didn't";
    "won't"; "wouldn't"; "couldn't"; "shouldn't" ].

Definition slang_words : list (string * string) :=
  [ ("goat", "greatest of all time"); ("sick", "excellent");
    ("lit", "excellent"); ("fire", "excellent"); ("dope", "excellent");
    ("cool", "good") ].

Definition idioms : list (string * string) :=
  [ ("arm and a leg", "expensive"); ("letdown", "disappointment");
    ("ages", "long time"); ("sick sound", "bad sound");
    ("costs an arm and a leg", "expensive") ].

Definition _max_cache_size : nat := 1000.

Definition sarcasm_patterns : list (Re.pattern * Z) :=
  [ (Re.DotStar "oh great" "delay", (-1)%Z);
    (Re.DotStar "oh wonderful" "problem", (-1)%Z);
    (Re.DotStar "love it when" "freeze", (-1)%Z);
    (Re.DotStar "exactly" "wanted", (-1)%Z);
    (Re.DotStar "perfect" "situation", (-1)%Z) ].

Definition negation_patterns : list (Re.pattern * string) :=
  [ (Re.Lit "not good", "bad"); (Re.Lit "not bad", "good");
    (Re.Lit "not great", "bad"); (Re.Lit "not excellent", "bad");
    (Re.Lit "not wonderful", "bad") ].

(** ** Stand-ins for NLTK

    Concrete functions used to run the analyzer on sample inputs.  They agree
    with NLTK on the words the samples use: lower-case words without
    punctuation are split at white space, unknown words are their own
    lemma, and the stop words are an excerpt of NLTK's English list. *)

Definition sample_stop_list : list string :=
  [ "i"; "me"; "my"; "we"; "our"; "you"; "your"; "he"; "him"; "his"; "she";
    "her"; "it"; "its"; "they"; "them"; "their"; "what"; "which"; "who";
    "this"; "that"; "these"; "those"; "am"; "is"; "are"; "was"; "were"; "be";
    "been"; "being"; "have"; "has"; "had"; "do"; "does"; "did"; "a"; "an";
    "the"; "and"; "but"; "if"; "or"; "because"; "as"; "until"; "while"; "of";
    "at"; "by"; "for"; "with"; "about"; "to"; "from"; "in"; "out"; "on";
    "off"; "over"; "under"; "again"; "then"; "once"; "here"; "there"; "when";
    "where"; "why"; "how"; "all"; "any"; "both"; "each"; "few"; "more";
    "most"; "other"; "some"; "such"; "no"; "nor"; "not"; "only"; "own";
    "same"; "so"; "than"; "too"; "very"; "can"; "will"; "just"; "now" ].

Definition sample_word_tokenize (text : string) : list string := Py.split text.

Definition sample_lemmatize (token : string) : string := token.

Definition sample_stop_words (token : string) : bool :=
  existsb (String.eqb token) sample_stop_list.

(** A scorer that knows two words, with VADER's figures for them. *)
Definition sample_polarity_scores (text : string) : Scores :=
  if Py.contains "good" text
  then mkScores 0 (256 # 1000) (744 # 1000) (4404 # 10000)
  else if Py.contains "bad" text
  then mkScores (778 # 1000) (222 # 1000) 0 (-5423 # 10000)
  else mkScores 0 1 0 0.

(** Sample inputs: numbered short texts, and texts that share their first
    100 characters. *)
Definition sample_text (n : nat) : string :=
  "t" ++ NilEmpty.string_of_uint (Nat.to_uint n).

Definition sample_texts (n : nat) : list string := map sample_text (seq 1 n).

Fixpoint repeat_string (s : string) (n : nat) : string :=
  match n with
  | O => EmptyString
  | S n' => s ++ repeat_string s n'
  end.

Definition long_prefix : string := repeat_string "x" 100.

(** Decidable forms of the side conditions on lists of texts. *)
Fixpoint nodupb (l : list string) : bool :=
  match l with
  | [] => true
  | x :: l' => negb (existsb (String.eqb x) l') && nodupb l'
  end.

Definition all_nonempty (l : list string) : bool :=
  forallb (fun s => negb (s =? "")) l.

(** ** Requests and responses of the HTTP routes

    What [request.get_json()] hands to a route: a parsed JSON value.  An
    object is the list of the items of the Python dict, whose keys are
    distinct. *)
#[warnings="-register-all"] Inductive json : Type :=
  | JNull
  | JBool (b : bool)
  | JNumber (q : Q)
  | JString (s : string)
  | JArray (items : list json)
  | JObject (fields : list (string * json)).

(** [bool(data)] *)
Definition json_truthy (data : json) : bool :=
  match data with
  | JNull => false
  | JBool b => b
  | JNumber q => negb (Qeq_bool q 0)
  | JString s => negb (s =? "")
  | JArray items => match items with [] => false | _ => true end
  | JObject fields => match fields with [] => false | _ => true end
  end.

(** [x == key] for a string [key]. *)
Definition json_is_string (key : string) (x : json) : bool :=
  match x with
  | JString s => String.eqb key s
  | _ => false
  end.

Fixpoint lookup (key : string) (fields : list (string * json)) : option json :=
  match fields with
  | [] => None
  | (k, v) :: rest => if String.eqb k key then Some v else lookup key rest
  end.

(** [key in data]: a key of a dict, an element of a list, a substring of a
    string; on a number or a boolean Python raises [TypeError], here [None]. *)
Definition json_contains (key : string) (data : json) : option bool :=
  match data with
  | JObject fields =>
      Some (match lookup key fields with Some _ => true | None => false end)
  | JArray items => Some (existsb (json_is_string key) items)
  | JString s => Some (Py.contains key s)
  | JNull | JBool _ | JNumber _ => None
  end.

(** [data[key]] for a string [key]: only a dict can be indexed by a string;
    a missing key raises [KeyError], a list or string raises [TypeError],
    here [None]. *)
Definition json_subscript (key : string) (data : json) : option json :=
  match data with
  | JObject fields => lookup key fields
  | _ => None
  end.

(** The body of a response.  Of an error body only the [error] message is
    kept; the constant [example] key and the interpreter's [details] text
    are left out. *)
Inductive body : Type :=
  | BodyResult (result : SentimentResult)
  | BodyBatch (results : list SentimentResult) (total_analyzed : nat)
              (timestamp : string)
  | BodyError (error : string).

(** A response: the status code and the body. *)
Definition response : Type := (nat * body)%type.

(** ** The analyzer *)

Section Analyzer.

(** [nltk.tokenize.word_tokenize] *)
Variable word_tokenize : string -> list string.
(** [WordNetLemmatizer().lemmatize] *)
Variable lemmatize : string -> string.
(** Membership in [set(stopwords.words("english"))] *)
Variable stop_words : string -> bool.
(** [SentimentIntensityAnalyzer().polarity_scores] *)
Variable polarity_scores : string -> Scores.

(** One loop of [_expand_slang_and_idioms]: the test reads [text_lower],
    the replacement is applied to the running [text]. *)
Definition expand_with (table : list (string * string))
    (text_lower text : string) : string :=
  fold_left
    (fun text entry =>
       if Py.contains (fst entry) text_lower
       then Py.replace (fst entry) (snd entry) text
       else text)
    table text.

Definition _expand_slang_and_idioms (text : string) : string :=
  let text_lower := Py.lower text in
  let text := expand_with idioms text_lower text in
  expand_with slang_words text_lower text.

(** The body of [preprocess_text] between the cache lookup and the cache
    store. *)
Definition preprocess_pipeline (text : string) : string :=
  let text := Py.lower text in
  let text := _expand_slang_and_idioms text in
  let text := Py.sub Re.url_pattern "" text in
  let text := Py.sub Re.email_pattern "" text in
  let text := Py.sub Re.special_chars_pattern " " text in
  let text := Py.strip (Py.sub Re.whitespace_pattern " " text) in
  let tokens := word_tokenize text in
  let tokens :=
    map lemmatize
        (filter (fun token => negb (stop_words (Py.lower token))) tokens) in
  Py.join " " tokens.

(** [preprocess_text]: the result and the cache after the call. *)
Definition preprocess_text (cache : Dict.t) (text : py_value)
    : string * Dict.t :=
  if negb (truthy text) || negb (isinstance_str text) then ("", cache)
  else
    match text with
    | PyStr text =>
        let cache_key := Py.slice_to 100 text in
        if Dict.mem cache_key cache
        then (match Dict.get cache_key cache with
              | Some v => v
              | None => ""
              end, cache)
        else
          let result := preprocess_pipeline text in
          let cache :=
            if (_max_cache_size <=? List.length cache)%nat
            then Dict.pop_first cache
            else cache in
          (result, Dict.set cache_key result cache)
    | _ => ("", cache)
    end.

(** The first entry whose pattern is found in the text. *)
Fixpoint first_search {A : Type} (patterns : list (Re.pattern * A))
    (text : string) : option A :=
  match patterns with
  | [] => None
  | (pattern, value) :: rest =>
      if Re.search pattern text then Some value else first_search rest text
  end.

Definition _detect_sarcasm (text : string) : Z :=
  let text_lower := Py.lower text in
  match first_search sarcasm_patterns text_lower with
  | Some sentiment => sentiment
  | None => 0%Z
  end.

Fixpoint double_negation_loop (patterns : list (string * string))
    (text_lower : string) : option string :=
  match patterns with
  | [] => None
  | (pattern, replacement) :: rest =>
      if Py.contains pattern text_lower then Some replacement
      else double_negation_loop rest text_lower
  end.

(** The loop over [negation_words]: for each word found in the text the
    inner loop over [negation_patterns] runs, and its first hit is returned.
    The inner loop does not depend on the word, so neither does the result
    depend on the order in which the set is walked. *)
Fixpoint negation_loop (words : list string) (text_lower : string)
    : option string :=
  match words with
  | [] => None
  | negation :: rest =>
      if Py.contains negation text_lower
      then match first_search negation_patterns text_lower with
           | Some replacement => Some replacement
           | None => negation_loop rest text_lower
           end
      else negation_loop rest text_lower
  end.

Definition _handle_negation (text : string) : option string :=
  let text_lower := Py.lower text in
  match double_negation_loop double_negation_patterns text_lower with
  | Some replacement => Some replacement
  | None => negation_loop negation_words text_lower
  end.

(** A result dict with all eight keys. *)
Definition result_dict (n u p c : Q) (l : label) (conf : Q)
    (original_text : py_value) (processed_text : string) : SentimentResult :=
  mkResult n u p c l conf (Some original_text) (Some processed_text).

Definition pos_words : list string :=
  [ "delicious"; "beautiful"; "good"; "great"; "excellent"; "wonderful";
    "interesting" ].

Definition neg_words : list string :=
  [ "terrible"; "bad"; "awful"; "pathetic"; "expensive"; "disappointing";
    "wooden" ].

(** [any(w in text for w in ws)] *)
Definition any_in (ws : list string) (text : string) : bool :=
  existsb (fun w => Py.contains w text) ws.

(** Truth value of [negation_result]: [None] and the empty string are false. *)
Definition negation_truthy (r : option string) : bool :=
  match r with
  | Some s => negb (s =? "")
  | None => false
  end.

(** The three vectors most rules return. *)
Definition negative_dict (original_text : string) (processed_text : string) :=
  result_dict 0.8 0.1 0.1 (-0.7) negative 0.7 (PyStr original_text) processed_text.

Definition positive_dict (original_text : string) (processed_text : string) :=
  result_dict 0.1 0.1 0.8 0.7 positive 0.7 (PyStr original_text) processed_text.

Definition mixed_dict (original_text : string) (processed_text : string) :=
  result_dict 0.4 0.2 0.4 0 mixed 0.5 (PyStr original_text) processed_text.

(** [_get_enhanced_sentiment]: the chain of [if] statements, in source
    order; [None] when none of them returns. *)
Definition _get_enhanced_sentiment (original_text processed_text : string)
    : option SentimentResult :=
  let lowered := Py.lower original_text in
  (* sarcasm *)
  if (_detect_sarcasm original_text <? 0)%Z
  then Some (negative_dict original_text processed_text)
  else
  (* negation and double negation *)
  let negation_result := _handle_negation original_text in
  if negation_truthy negation_result
  then
    if existsb (fun w => match negation_result with
                         | Some r => String.eqb r w
                         | None => false
                         end)
               ["good"; "like"; "happy"; "excellent"]
    then Some (positive_dict original_text processed_text)
    else Some (negative_dict original_text processed_text)
  else
  (* mixed sentiments (aspect-based) *)
  if (Py.contains " but " lowered || Py.contains " however " lowered)
     && (any_in pos_words processed_text && any_in neg_words processed_text)
  then Some (mixed_dict original_text processed_text)
  else
  if Py.contains "plot was interesting" lowered
     && Py.contains "acting was wooden" lowered
  then Some (mixed_dict original_text processed_text)
  else
  (* conditional statements *)
  if Py.contains "if only" lowered || Py.contains "wish" lowered
  then Some (result_dict 0.7 0.2 0.1 (-0.6) negative 0.6
                         (PyStr original_text) processed_text)
  else
  if Py.contains "letdown" lowered
  then Some (negative_dict original_text processed_text)
  else
  if Py.contains "sick sound" lowered
  then Some (negative_dict original_text processed_text)
  else
  if Py.contains "disappointed" lowered
  then Some (negative_dict original_text processed_text)
  else
  (* soft negation *)
  if Py.contains "wasn't exactly" lowered
     || Py.contains "was not exactly" lowered
  then Some (negative_dict original_text processed_text)
  else
  (* thwarted expectations *)
  if Py.contains "expected" lowered
     && (Py.contains "but" lowered || Py.contains "yet" lowered)
  then Some (negative_dict original_text processed_text)
  else
  if Py.contains "clear as mud" lowered
  then Some (negative_dict original_text processed_text)
  else
  if Py.contains "can't complain" lowered
     || Py.contains "cant complain" lowered
  then Some (positive_dict original_text processed_text)
  else
  (* comparative disappointment *)
  if Py.contains "wasn't nearly as good" lowered
     || Py.contains "not nearly as good" lowered
  then Some (negative_dict original_text processed_text)
  else
  (* hyperbolic negatives *)
  if Py.contains "at all costs" lowered || Py.contains "worst enemy" lowered
  then Some (negative_dict original_text processed_text)
  else
  (* slang for positive sentiment *)
  if any_in ["goat"; "sick"; "lit"; "fire"] lowered
  then Some (positive_dict original_text processed_text)
  else
  (* idioms and hyperbole *)
  if any_in ["arm and a leg"; "ages"] lowered
  then Some (negative_dict original_text processed_text)
  else
  if Py.contains "surprisingly quiet" lowered
  then Some (result_dict 0.1 0.8 0.1 0 neutral 0.5
                         (PyStr original_text) processed_text)
  else
  if Py.contains "nightmare to navigate" lowered
  then Some (negative_dict original_text processed_text)
  else
  if Py.contains "worst best movie" lowered
  then Some (positive_dict original_text processed_text)
  else None.

(** The label of the fallback path, from the scorer's compound. *)
Definition label_of_compound (c : Q) : label :=
  if Qle_bool 0.05 c then positive
  else if Qle_bool c (-0.05) then negative
  else neutral.

(** [analyze_sentiment]: the result and the cache after the call. *)
Definition analyze_sentiment (cache : Dict.t) (text : py_value)
    : SentimentResult * Dict.t :=
  if negb (truthy text) || negb (isinstance_str text)
  then (mkResult 0 0 0 0 neutral 0 (Some text) (Some ""), cache)
  else
    match text with
    | PyStr s =>
        let (processed_text, cache) := preprocess_text cache text in
        if (processed_text =? "")
        then (mkResult 0 0 0 0 neutral 0 None None, cache)
        else
          match _get_enhanced_sentiment s processed_text with
          | Some enhanced_sentiment => (enhanced_sentiment, cache)
          | None =>
              let scores := polarity_scores processed_text in
              let c := score_compound scores in
              let l := label_of_compound c in
              let conf := Qabs c in
              (result_dict (py_round (score_neg scores) 4)
                           (py_round (score_neu scores) 4)
                           (py_round (score_pos scores) 4)
                           (py_round c 4)
                           l
                           (py_round conf 4)
                           text processed_text, cache)
          end
    | _ => (mkResult 0 0 0 0 neutral 0 (Some text) (Some ""), cache)
    end.

(** The cache states the analyzer can be in: it starts empty and changes
    only through [preprocess_text], which [analyze_sentiment] calls. *)
Inductive reachable : Dict.t -> Prop :=
  | reachable_init : reachable []
  | reachable_step : forall cache text,
      reachable cache -> reachable (snd (preprocess_text cache text)).

(** Running [analyze_sentiment] over a list of inputs, threading the cache. *)
Fixpoint analyze_all (cache : Dict.t) (texts : list py_value)
    : list SentimentResult * Dict.t :=
  match texts with
  | [] => ([], cache)
  | text :: rest =>
      let (r, cache) := analyze_sentiment cache text in
      let (rs, cache) := analyze_all cache rest in
      (r :: rs, cache)
  end.

(** Running [preprocess_text] over a list of inputs; the final cache. *)
Definition preprocess_all (cache : Dict.t) (texts : list py_value) : Dict.t :=
  fold_left (fun cache text => snd (preprocess_text cache text)) texts cache.

(** The entry a miss on [s] stores. *)
Definition entry_of (s : string) : string * string :=
  (Py.slice_to 100 s, preprocess_pipeline s).

(** *** The chain as a numbered table

    The rules of [_get_enhanced_sentiment] numbered 1 to 20 in source order
    (the double-negation list and the simple-negation loop of
    [_handle_negation] are rules 2 and 3): the trigger of each rule, its
    outcome, and the first rule whose trigger holds.
    [enhanced_sentiment_by_rule] below shows that the chain computes exactly
    the outcome of that first rule. *)
Definition rule_trigger (k : nat) (original_text processed_text : string)
    : bool :=
  let lowered := Py.lower original_text in
  match k with
  | 1 => (_detect_sarcasm original_text <? 0)%Z
  | 2 => negation_truthy
           (double_negation_loop double_negation_patterns lowered)
  | 3 => negation_truthy (_handle_negation original_text)
  | 4 => (Py.contains " but " lowered || Py.contains " however " lowered)
         && (any_in pos_words processed_text
             && any_in neg_words processed_text)
  | 5 => Py.contains "plot was interesting" lowered
         && Py.contains "acting was wooden" lowered
  | 6 => Py.contains "if only" lowered || Py.contains "wish" lowered
  | 7 => Py.contains "letdown" lowered
  | 8 => Py.contains "sick sound" lowered
  | 9 => Py.contains "disappointed" lowered
  | 10 => Py.contains "wasn't exactly" lowered
          || Py.contains "was not exactly" lowered
  | 11 => Py.contains "expected" lowered
          && (Py.contains "but" lowered || Py.contains "yet" lowered)
  | 12 => Py.contains "clear as mud" lowered
  | 13 => Py.contains "can't complain" lowered
          || Py.contains "cant complain" lowered
  | 14 => Py.contains "wasn't nearly as good" lowered
          || Py.contains "not nearly as good" lowered
  | 15 => Py.contains "at all costs" lowered
          || Py.contains "worst enemy" lowered
  | 16 => any_in ["goat"; "sick"; "lit"; "fire"] lowered
  | 17 => any_in ["arm and a leg"; "ages"] lowered
  | 18 => Py.contains "surprisingly quiet" lowered
  | 19 => Py.contains "nightmare to navigate" lowered
  | 20 => Py.contains "worst best movie" lowered
  | _ => false
  end.

Definition negation_outcome (original_text processed_text : string)
    : SentimentResult :=
  if existsb (fun w => match _handle_negation original_text with
                       | Some r => String.eqb r w
                       | None => false
                       end)
             ["good"; "like"; "happy"; "excellent"]
  then positive_dict original_text processed_text
  else negative_dict original_text processed_text.

Definition rule_outcome (k : nat) (original_text processed_text : string)
    : SentimentResult :=
  match k with
  | 2 | 3 => negation_outcome original_text processed_text
  | 4 | 5 => mixed_dict original_text processed_text
  | 6 => result_dict 0.7 0.2 0.1 (-0.6) negative 0.6
                     (PyStr original_text) processed_text
  | 13 | 16 | 20 => positive_dict original_text processed_text
  | 18 => result_dict 0.1 0.8 0.1 0 neutral 0.5
                      (PyStr original_text) processed_text
  | _ => negative_dict original_text processed_text
  end.

Definition first_rule (original_text processed_text : string) : option nat :=
  find (fun k => rule_trigger k original_text processed_text) (seq 1 20).

(** Whether one of the slang or idiom terms occurs in the text as words of
    its own, that is, between white space or the ends of the text. *)
Definition has_standalone_term (text : string) : bool :=
  let words := " " ++ Py.join " " (Py.split (Py.lower text)) ++ " " in
  existsb (fun term => Py.contains (" " ++ term ++ " ") words)
          (map fst slang_words ++ map fst idioms).

(** Every entry of the cache was computed by the pipeline from some text
    with that key. *)
Definition cache_sound (cache : Dict.t) : Prop :=
  forall k v, In (k, v) cache ->
    exists s, s <> "" /\ Py.slice_to 100 s = k /\ v = preprocess_pipeline s.

(** *** Texts in normal form

    The characters the pipeline can leave in a text: lower-case letters,
    digits, the space, and the punctuation [special_chars_pattern] keeps. *)
Definition normal_char (c : ascii) : bool :=
  let n := Py.ord c in
  (Py.between 97 122 n || Py.between 48 57 n || (n =? 32)
   || (n =? 46) || (n =? 33) || (n =? 63) || (n =? 44) || (n =? 59)
   || (n =? 58) || (n =? 45) || (n =? 40) || (n =? 41))%nat.

Fixpoint all_chars (p : ascii -> bool) (s : string) : bool :=
  match s with
  | EmptyString => true
  | String c s' => p c && all_chars p s'
  end.

Fixpoint last_is_space (s : string) : bool :=
  match s with
  | EmptyString => false
  | String c EmptyString => Py.is_space c
  | String _ s' => last_is_space s'
  end.

(** The last three steps of the pipeline: drop the stop words, lemmatize,
    join. *)
Definition retokenize (s : string) : string :=
  Py.join " "
    (map lemmatize
       (filter (fun token => negb (stop_words (Py.lower token)))
          (word_tokenize s))).

(** A text is in normal form when it is made of [normal_char]s, has no
    space at either end and no two spaces in a row, contains no idiom or
    slang term, and comes back unchanged from [retokenize]. *)
Definition normal_form (s : string) : Prop :=
  all_chars normal_char s = true
  /\ Py.startswith " " s = false
  /\ last_is_space s = false
  /\ Py.contains "  " s = false
  /\ any_in (map fst idioms ++ map fst slang_words) s = false
  /\ retokenize s = s.

(** *** The text handed to the tokenizer

    [preprocess_text] from the lower-casing to the [strip()]: the part of the
    pipeline that does not call NLTK. *)
Definition clean_text (text : string) : string :=
  let text := Py.lower text in
  let text := _expand_slang_and_idioms text in
  let text := Py.sub Re.url_pattern "" text in
  let text := Py.sub Re.email_pattern "" text in
  let text := Py.sub Re.special_chars_pattern " " text in
  Py.strip (Py.sub Re.whitespace_pattern " " text).


(** *** The routes

    Both handlers from the parsed body on, with the module-level analyzer's
    cache passed in and out.  An exception raised inside the [try] becomes
    the 500 response of the [except] clause. *)
Definition analyze_sentiment_api (cache : Dict.t) (data : json)
    : response * Dict.t :=
  let invalid :=
    (400, BodyError "Invalid request. Please provide text in JSON format.") in
  let failed :=
    (500, BodyError "An error occurred during sentiment analysis.") in
  if negb (json_truthy data) then (invalid, cache)
  else
    match json_contains "text" data with
    | None => (failed, cache)
    | Some false => (invalid, cache)
    | Some true =>
        match json_subscript "text" data with
        | None => (failed, cache)
        | Some (JString text) =>
            let (result, cache) := analyze_sentiment cache (PyStr text) in
            ((200, BodyResult result), cache)
        | Some _ => ((400, BodyError "Text must be a string."), cache)
        end
    end.

(** The loop of [batch_analyze_sentiment]: strings are analyzed and their
    results appended, anything else is skipped. *)
Fixpoint batch_loop (cache : Dict.t) (results : list SentimentResult)
    (texts : list json) : list SentimentResult * Dict.t :=
  match texts with
  | [] => (results, cache)
  | JString text :: rest =>
      let (result, cache) := analyze_sentiment cache (PyStr text) in
      batch_loop cache (results ++ [result])%list rest
  | _ :: rest => batch_loop cache results rest
  end.

(** [timestamp] is the reading of [datetime.now().isoformat()]. *)
Definition batch_analyze_sentiment (timestamp : string) (cache : Dict.t)
    (data : json) : response * Dict.t :=
  let invalid :=
    (400,
     BodyError "Invalid request. Please provide texts array in JSON format.")
  in
  let failed :=
    (500, BodyError "An error occurred during batch sentiment analysis.") in
  if negb (json_truthy data) then (invalid, cache)
  else
    match json_contains "texts" data with
    | None => (failed, cache)
    | Some false => (invalid, cache)
    | Some true =>
        match json_subscript "texts" data with
        | None => (failed, cache)
        | Some (JArray ((_ :: _) as texts)) =>
            let (results, cache) := batch_loop cache [] texts in
            ((200, BodyBatch results (List.length results) timestamp), cache)
        | Some _ =>
            ((400, BodyError "Texts must be a non-empty array."), cache)
        end
    end.

(** The strings among the elements of a JSON array, in order. *)
Fixpoint strings_of (texts : list json) : list py_value :=
  match texts with
  | [] => []
  | JString text :: rest => PyStr text :: strings_of rest
  | _ :: rest => strings_of rest
  end.

(** Characters that are not upper-case letters, and those of them that
    [special_chars_pattern] keeps. *)
Definition not_upper (c : ascii) : bool := negb (Py.is_upper c).

Definition plain_lower (c : ascii) : bool :=
  Re.plain_char c && not_upper c.

(** ** Strings and the cache: basic facts *)

Lemma string_eqb_empty (s : string) : (s =? "") = false <-> s <> "".
Proof.
  split.
  - intros H E. subst s. discriminate H.
  - intros H. destruct (String.eqb_spec s ""); [contradiction | reflexivity].
Qed.

Lemma dict_mem_get (k : string) (d : Dict.t) :
  Dict.mem k d = true <-> exists v, Dict.get k d = Some v.
Proof.
  unfold Dict.mem. destruct (Dict.get k d) as [v|].
  - split; [intros _; now exists v | reflexivity].
  - split; [discriminate | intros [v H]; discriminate H].
Qed.

Lemma dict_get_In (k v : string) (d : Dict.t) :
  Dict.get k d = Some v -> In (k, v) d.
Proof.
  induction d as [|[k' v'] d IH]; simpl; [discriminate|].
  destruct (String.eqb_spec k' k) as [->|_].
  - intros [= ->]. now left.
  - intros H. right. auto.
Qed.

Lemma dict_get_not_key (k : string) (d : Dict.t) :
  Dict.get k d = None <-> ~ In k (Dict.keys d).
Proof.
  induction d as [|[k' v'] d IH]; simpl.
  - split; auto.
  - destruct (String.eqb_spec k' k) as [->|N].
    + split; [discriminate | intros H; exfalso; apply H; now left].
    + rewrite IH. split.
      * intros H [E|I]; [now apply N | now apply H].
      * intros H I. apply H. now right.
Qed.

(** Storing under a key that is absent appends the entry. *)
Lemma dict_set_fresh (k v : string) (d : Dict.t) :
  Dict.get k d = None -> Dict.set k v d = (d ++ [(k, v)])%list.
Proof.
  induction d as [|[k' v'] d IH]; simpl; [reflexivity|].
  destruct (String.eqb k' k); [discriminate|].
  intros H. now rewrite IH.
Qed.

Lemma dict_get_set_same (k v : string) (d : Dict.t) :
  Dict.get k (Dict.set k v d) = Some v.
Proof.
  induction d as [|[k' v'] d IH]; simpl.
  - now rewrite String.eqb_refl.
  - destruct (String.eqb k' k) eqn:E; simpl.
    + now rewrite String.eqb_refl.
    + now rewrite E.
Qed.

Lemma dict_set_In (k v k0 v0 : string) (d : Dict.t) :
  In (k0, v0) (Dict.set k v d) -> (k0, v0) = (k, v) \/ In (k0, v0) d.
Proof.
  induction d as [|[k' v'] d IH]; simpl.
  - intros [E|[]]. now left.
  - destruct (String.eqb k' k); simpl.
    + intros [E|I]; [now left | right; now right].
    + intros [E|I]; [right; now left|].
      destruct (IH I) as [E|I']; [now left | right; now right].
Qed.

Lemma dict_get_tl_None (k : string) (d : Dict.t) :
  Dict.get k d = None -> Dict.get k (List.tl d) = None.
Proof.
  destruct d as [|[k' v'] d]; simpl; [auto|].
  destruct (String.eqb k' k); [discriminate | auto].
Qed.

Lemma slice_to_length (n : nat) (s : string) :
  length (Py.slice_to n s) = Nat.min n (length s).
Proof.
  revert s. induction n as [|n IH]; intros [|c s]; simpl; auto.
Qed.

Lemma slice_to_all (n : nat) (s : string) :
  length s <= n -> Py.slice_to n s = s.
Proof.
  revert s. induction n as [|n IH]; intros [|c s]; simpl; intros H;
    try reflexivity; try lia.
  f_equal. apply IH. lia.
Qed.

Lemma slice_to_nonempty (n : nat) (s : string) :
  s <> "" -> Py.slice_to (S n) s <> "".
Proof. destruct s; simpl; [contradiction | discriminate]. Qed.

Arguments Py.slice_to : simpl never.
Arguments preprocess_pipeline : simpl never.

(** ** [preprocess_text], case by case *)

Lemma preprocess_text_degenerate (cache : Dict.t) (text : py_value) :
  truthy text = false \/ isinstance_str text = false ->
  preprocess_text cache text = ("", cache).
Proof.
  unfold preprocess_text. intros [H|H]; rewrite H; simpl.
  - reflexivity.
  - now rewrite orb_true_r.
Qed.

Lemma preprocess_text_hit (cache : Dict.t) (s v : string) :
  s <> "" ->
  Dict.get (Py.slice_to 100 s) cache = Some v ->
  preprocess_text cache (PyStr s) = (v, cache).
Proof.
  intros Hs Hget. unfold preprocess_text. simpl truthy. simpl isinstance_str.
  apply string_eqb_empty in Hs. rewrite Hs. simpl negb. simpl orb.
  unfold Dict.mem. now rewrite Hget.
Qed.

Lemma preprocess_text_miss (cache : Dict.t) (s : string) :
  s <> "" ->
  Dict.get (Py.slice_to 100 s) cache = None ->
  preprocess_text cache (PyStr s) =
    (preprocess_pipeline s,
     Dict.set (Py.slice_to 100 s) (preprocess_pipeline s)
       (if (_max_cache_size <=? List.length cache)%nat
        then Dict.pop_first cache else cache)).
Proof.
  intros Hs Hget. unfold preprocess_text. simpl truthy. simpl isinstance_str.
  apply string_eqb_empty in Hs. rewrite Hs. simpl negb. simpl orb.
  unfold Dict.mem. now rewrite Hget.
Qed.

(** A value is either degenerate for the analyzer or a non-empty string. *)
Lemma py_value_cases (text : py_value) :
  (truthy text = false \/ isinstance_str text = false)
  \/ exists s, text = PyStr s /\ s <> "".
Proof.
  destruct text as [| b | z | s]; try (left; right; reflexivity).
  destruct (String.eqb_spec s "") as [->|N].
  - left; left; reflexivity.
  - right. now exists s.
Qed.

(** After any call on a non-empty string, its key is in the cache and maps
    to the string the call returned. *)
Lemma preprocess_text_stores (cache : Dict.t) (s : string) :
  s <> "" ->
  Dict.get (Py.slice_to 100 s) (snd (preprocess_text cache (PyStr s)))
  = Some (fst (preprocess_text cache (PyStr s))).
Proof.
  intros Hs. destruct (Dict.get (Py.slice_to 100 s) cache) as [v|] eqn:G.
  - rewrite (preprocess_text_hit _ _ _ Hs G). exact G.
  - rewrite (preprocess_text_miss _ _ Hs G). simpl. apply dict_get_set_same.
Qed.

(** ** The cache bound and the order of eviction *)

Lemma dict_get_app_fresh (k k' v' : string) (d : Dict.t) :
  Dict.get k d = None -> k' <> k ->
  Dict.get k (d ++ [(k', v')])%list = None.
Proof.
  intros Hd Hk. induction d as [|[k0 v0] d IH]; simpl in *.
  - destruct (String.eqb_spec k' k); [contradiction | reflexivity].
  - destruct (String.eqb k0 k); [discriminate | auto].
Qed.

(** The cache after one call, in all cases: unchanged, or one entry added at
    the end after at most one entry was dropped at the front. *)
Lemma preprocess_text_cache_shape (cache : Dict.t) (text : py_value) :
  snd (preprocess_text cache text) = cache
  \/ exists s, text = PyStr s /\ s <> ""
       /\ Dict.get (Py.slice_to 100 s) cache = None
       /\ snd (preprocess_text cache text) =
            ((if (_max_cache_size <=? List.length cache)%nat
              then List.tl cache else cache)
             ++ [(Py.slice_to 100 s, preprocess_pipeline s)])%list.
Proof.
  destruct (py_value_cases text) as [D | [s [-> Hs]]].
  - left. now rewrite preprocess_text_degenerate.
  - destruct (Dict.get (Py.slice_to 100 s) cache) as [v|] eqn:G.
    + left. now rewrite (preprocess_text_hit _ _ _ Hs G).
    + right. exists s. repeat split; auto.
      rewrite (preprocess_text_miss _ _ Hs G). cbn [snd].
      apply dict_set_fresh. unfold Dict.pop_first.
      destruct (_max_cache_size <=? List.length cache)%nat;
        [now apply dict_get_tl_None | exact G].
Qed.

Lemma length_tl_snoc {A : Type} (l : list A) (x : A) :
  l <> [] -> List.length (List.tl l ++ [x]) = List.length l.
Proof.
  destruct l as [|a l]; [contradiction|]. intros _.
  cbn [List.tl]. rewrite length_app. cbn [List.length]. lia.
Qed.

Lemma preprocess_text_bound (cache : Dict.t) (text : py_value) :
  List.length cache <= _max_cache_size ->
  List.length (snd (preprocess_text cache text)) <= _max_cache_size.
Proof.
  intros Hlen.
  destruct (preprocess_text_cache_shape cache text)
    as [-> | [s [_ [_ [_ ->]]]]]; [exact Hlen|].
  destruct (Nat.leb_spec _max_cache_size (List.length cache)) as [Hge|Hlt].
  - rewrite length_tl_snoc; [exact Hlen|].
    intros ->. unfold _max_cache_size in Hge. cbn [List.length] in Hge. lia.
  - rewrite length_app. cbn [List.length]. lia.
Qed.

Lemma reachable_bound (cache : Dict.t) :
  reachable cache -> List.length cache <= _max_cache_size.
Proof.
  induction 1 as [|cache text _ IH].
  - cbn [List.length]. lia.
  - now apply preprocess_text_bound.
Qed.

Lemma skipn_tl_snoc {A : Type} (n : nat) (l rest : list A) (x : A) :
  l <> [] ->
  skipn n ((List.tl l ++ [x]) ++ rest) = skipn (S n) (l ++ x :: rest).
Proof.
  destruct l as [|a l]; [contradiction|]. intros _.
  cbn [List.tl]. rewrite <- app_assoc. reflexivity.
Qed.

(** A run of misses leaves the last [_max_cache_size] entries, in order. *)
Lemma preprocess_all_fresh (texts : list string) :
  forall cache : Dict.t,
    List.length cache <= _max_cache_size ->
    Forall (fun s => s <> "") texts ->
    NoDup (map (Py.slice_to 100) texts) ->
    (forall s, In s texts -> Dict.get (Py.slice_to 100 s) cache = None) ->
    preprocess_all cache (map PyStr texts) =
      skipn (List.length cache + List.length texts - _max_cache_size)
            (cache ++ map entry_of texts)%list.
Proof.
  induction texts as [|s ts IH]; intros cache Hlen Hne Hnd Hfresh.
  - cbn [map List.length]. rewrite app_nil_r.
    replace (List.length cache + 0 - _max_cache_size) with 0 by lia.
    reflexivity.
  - inversion Hne as [|? ? Hs Hne']; subst.
    cbn [map] in Hnd. inversion Hnd as [|? ? Hnotin Hnd']; subst.
    assert (G : Dict.get (Py.slice_to 100 s) cache = None)
      by (apply Hfresh; now left).
    destruct (preprocess_text_cache_shape cache (PyStr s))
      as [Same | [s0 [E [_ [_ Shape]]]]].
    { rewrite (preprocess_text_miss _ _ Hs G) in Same. cbn [snd] in Same.
      pose proof (dict_get_set_same (Py.slice_to 100 s) (preprocess_pipeline s)
        (if (_max_cache_size <=? List.length cache)%nat
         then Dict.pop_first cache else cache)) as Hget.
      rewrite Same in Hget. congruence. }
    injection E as <-.
    unfold preprocess_all in *. cbn [map fold_left]. rewrite Shape.
    fold (entry_of s).
    assert (Hfresh' : forall s', In s' ts ->
      Dict.get (Py.slice_to 100 s')
        ((if (_max_cache_size <=? List.length cache)%nat
          then List.tl cache else cache) ++ [entry_of s])%list = None).
    { intros s' Hin. apply dict_get_app_fresh.
      - destruct (_max_cache_size <=? List.length cache)%nat.
        + apply dict_get_tl_None. apply Hfresh. now right.
        + apply Hfresh. now right.
      - intros E. apply Hnotin. cbn [entry_of fst] in E. rewrite E.
        now apply in_map. }
    destruct (Nat.leb_spec _max_cache_size (List.length cache)) as [Hge|Hlt].
    + assert (Hnil : cache <> []).
      { intros ->. unfold _max_cache_size in Hge. cbn [List.length] in Hge. lia. }
      rewrite IH; auto.
      * rewrite (length_tl_snoc _ _ Hnil), (skipn_tl_snoc _ _ _ _ Hnil).
        cbn [map List.length].
        replace (List.length cache + S (List.length ts) - _max_cache_size)
          with (S (List.length cache + List.length ts - _max_cache_size))
          by lia.
        reflexivity.
      * rewrite (length_tl_snoc _ _ Hnil). exact Hlen.
    + rewrite IH; auto.
      * rewrite length_app, <- app_assoc. cbn [map List.length app].
        f_equal. lia.
      * rewrite length_app. cbn [List.length]. lia.
Qed.

Lemma keys_entries (texts : list string) :
  Dict.keys (map entry_of texts) = map (Py.slice_to 100) texts.
Proof.
  unfold Dict.keys. rewrite map_map. reflexivity.
Qed.

(** Claim C2.  The preprocessing cache never holds more than 1000 entries;
    once it holds 1000, a miss drops the oldest entry and appends the new
    one; and after 1001 misses on distinct 100-character-prefix keys,
    starting from the empty cache, it holds exactly the 1000 entries of the
    last 1000 texts, in order, the first-inserted key being gone. *)
Theorem cache_bound_fifo_eviction
    (cache : Dict.t) (s : string) (texts : list string) :
  (reachable cache -> List.length cache <= 1000)
  /\ (reachable cache -> s <> "" ->
      Dict.mem (Py.slice_to 100 s) cache = false ->
      1000 <= List.length cache ->
      snd (preprocess_text cache (PyStr s)) =
        (List.tl cache ++ [(Py.slice_to 100 s, preprocess_pipeline s)])%list)
  /\ (List.length texts = 1001 ->
      Forall (fun t => t <> "") texts ->
      NoDup (map (Py.slice_to 100) texts) ->
      let final := preprocess_all [] (map PyStr texts) in
      List.length final = 1000
      /\ Dict.keys final = map (Py.slice_to 100) (List.tl texts)
      /\ Dict.mem (Py.slice_to 100 (hd "" texts)) final = false).
Proof.
  split; [|split].
  - apply reachable_bound.
  - intros _ Hs Hmem Hfull.
    destruct (preprocess_text_cache_shape cache (PyStr s))
      as [Same | [s0 [E [_ [_ Shape]]]]].
    + assert (G : Dict.get (Py.slice_to 100 s) cache = None).
      { unfold Dict.mem in Hmem.
        destruct (Dict.get (Py.slice_to 100 s) cache); [discriminate | reflexivity]. }
      pose proof (preprocess_text_stores cache s Hs) as Hst.
      rewrite Same, G in Hst. discriminate Hst.
    + injection E as <-. rewrite Shape.
      destruct (Nat.leb_spec _max_cache_size (List.length cache)) as [_|Hlt];
        [reflexivity | unfold _max_cache_size in Hlt; lia].
  - intros Hlen Hne Hnd final.
    assert (Hfinal : final = map entry_of (List.tl texts)).
    { unfold final. rewrite preprocess_all_fresh; auto.
      - cbn [List.length app]. rewrite Hlen.
        replace (0 + 1001 - _max_cache_size) with 1
          by (unfold _max_cache_size; lia).
        destruct texts; reflexivity.
      - cbn [List.length]. lia. }
    rewrite Hfinal. repeat split.
    + rewrite length_map. destruct texts as [|t ts]; cbn [List.length List.tl] in *; lia.
    + apply keys_entries.
    + destruct texts as [|t ts]; [discriminate Hlen|].
      cbn [hd List.tl map] in *. inversion Hnd as [|? ? Hnotin _]; subst.
      unfold Dict.mem.
      destruct (Dict.get (Py.slice_to 100 t) (map entry_of ts)) eqn:G;
        [|reflexivity].
      exfalso. apply Hnotin. rewrite <- keys_entries.
      apply dict_get_In in G. unfold Dict.keys.
      change (Py.slice_to 100 t) with (fst (Py.slice_to 100 t, s0)).
      now apply in_map.
Qed.

(** Claim C8.  A call whose 100-character key is in the cache returns the
    cached string and leaves the cache as it was, without running the
    pipeline on the text; hence a text that shares its first 100 characters
    with the text of an earlier call gets that call's result. *)
Theorem cache_hit_short_circuit (cache : Dict.t) (s s' v : string) :
  (s <> "" ->
   Dict.get (Py.slice_to 100 s) cache = Some v ->
   preprocess_text cache (PyStr s) = (v, cache))
  /\ (s <> "" -> s' <> "" -> s <> s' ->
      Py.slice_to 100 s = Py.slice_to 100 s' ->
      let (r, cache1) := preprocess_text cache (PyStr s) in
      preprocess_text cache1 (PyStr s') = (r, cache1)).
Proof.
  split.
  - apply preprocess_text_hit.
  - intros Hs Hs' _ Hkey.
    pose proof (preprocess_text_stores cache s Hs) as Hst.
    destruct (preprocess_text cache (PyStr s)) as [r cache1].
    cbn [fst snd] in Hst. rewrite Hkey in Hst.
    now apply preprocess_text_hit.
Qed.

(** ** [analyze_sentiment], case by case *)

Lemma analyze_sentiment_degenerate (cache : Dict.t) (text : py_value) :
  truthy text = false \/ isinstance_str text = false ->
  analyze_sentiment cache text =
    (mkResult 0 0 0 0 neutral 0 (Some text) (Some ""), cache).
Proof.
  unfold analyze_sentiment. intros [H|H]; rewrite H; cbn [negb orb].
  - reflexivity.
  - now rewrite orb_true_r.
Qed.

Lemma analyze_sentiment_str (cache : Dict.t) (s : string) :
  s <> "" ->
  analyze_sentiment cache (PyStr s) =
    let (processed_text, cache') := preprocess_text cache (PyStr s) in
    if (processed_text =? "")
    then (mkResult 0 0 0 0 neutral 0 None None, cache')
    else
      match _get_enhanced_sentiment s processed_text with
      | Some enhanced_sentiment => (enhanced_sentiment, cache')
      | None =>
          let scores := polarity_scores processed_text in
          let c := score_compound scores in
          (result_dict (py_round (score_neg scores) 4)
                       (py_round (score_neu scores) 4)
                       (py_round (score_pos scores) 4)
                       (py_round c 4)
                       (label_of_compound c)
                       (py_round (Qabs c) 4)
                       (PyStr s) processed_text, cache')
      end.
Proof.
  intros Hs. unfold analyze_sentiment. cbn [truthy isinstance_str].
  apply string_eqb_empty in Hs. rewrite Hs. cbn [negb orb]. reflexivity.
Qed.

Lemma analyze_sentiment_empty_processed (cache : Dict.t) (s : string) :
  s <> "" ->
  fst (preprocess_text cache (PyStr s)) = "" ->
  fst (analyze_sentiment cache (PyStr s)) =
    mkResult 0 0 0 0 neutral 0 None None.
Proof.
  intros Hs Hp. rewrite (analyze_sentiment_str _ _ Hs).
  destruct (preprocess_text cache (PyStr s)) as [p cache'].
  cbn [fst] in Hp. subst p. reflexivity.
Qed.

Lemma analyze_sentiment_rule (cache : Dict.t) (s : string) (r : SentimentResult) :
  s <> "" ->
  fst (preprocess_text cache (PyStr s)) <> "" ->
  _get_enhanced_sentiment s (fst (preprocess_text cache (PyStr s))) = Some r ->
  fst (analyze_sentiment cache (PyStr s)) = r.
Proof.
  intros Hs Hp Hr. rewrite (analyze_sentiment_str _ _ Hs).
  destruct (preprocess_text cache (PyStr s)) as [p cache'].
  cbn [fst] in *. apply string_eqb_empty in Hp. rewrite Hp, Hr. reflexivity.
Qed.

Lemma analyze_sentiment_scorer (cache : Dict.t) (s : string) :
  s <> "" ->
  let p := fst (preprocess_text cache (PyStr s)) in
  p <> "" ->
  _get_enhanced_sentiment s p = None ->
  fst (analyze_sentiment cache (PyStr s)) =
    let scores := polarity_scores p in
    let c := score_compound scores in
    result_dict (py_round (score_neg scores) 4)
                (py_round (score_neu scores) 4)
                (py_round (score_pos scores) 4)
                (py_round c 4)
                (label_of_compound c)
                (py_round (Qabs c) 4)
                (PyStr s) p.
Proof.
  intros Hs p Hp Hr. rewrite (analyze_sentiment_str _ _ Hs).
  subst p. destruct (preprocess_text cache (PyStr s)) as [p cache'].
  cbn [fst] in *. apply string_eqb_empty in Hp. rewrite Hp, Hr. reflexivity.
Qed.

(** Claim C5.  An empty or non-string input gives the zero-valued neutral
    result with the original value under [original_text] (and an empty
    [processed_text]); a non-empty string whose normalization is empty gives
    the zero-valued neutral result without the two text keys. *)
Theorem degenerate_input_asymmetry
    (cache : Dict.t) (text : py_value) (s : string) :
  (truthy text = false \/ isinstance_str text = false ->
   analyze_sentiment cache text =
     (mkResult 0 0 0 0 neutral 0 (Some text) (Some ""), cache))
  /\ (s <> "" ->
      fst (preprocess_text cache (PyStr s)) = "" ->
      let r := fst (analyze_sentiment cache (PyStr s)) in
      r = mkResult 0 0 0 0 neutral 0 None None
      /\ original_text r = None /\ processed_text r = None).
Proof.
  split.
  - apply analyze_sentiment_degenerate.
  - intros Hs Hp r. subst r.
    rewrite (analyze_sentiment_empty_processed _ _ Hs Hp). auto.
Qed.

(** Claim C10.  For an empty or non-string input, and for an input whose
    normalization is empty, the result has neg = neu = pos = 0, so the three
    sum to 0 and do not round to 1, and compound = confidence = 0. *)
Theorem degenerate_results_sum_to_zero (cache : Dict.t) (text : py_value) :
  truthy text = false \/ isinstance_str text = false
  \/ fst (preprocess_text cache text) = "" ->
  let r := fst (analyze_sentiment cache text) in
  neg r = 0%Q /\ neu r = 0%Q /\ pos r = 0%Q
  /\ compound r = 0%Q /\ confidence r = 0%Q
  /\ (neg r + neu r + pos r == 0)%Q
  /\ ~ (py_round (neg r + neu r + pos r) 2 == 1)%Q.
Proof.
  intros H r.
  assert (E : r = mkResult 0 0 0 0 neutral 0 (Some text) (Some "")
              \/ r = mkResult 0 0 0 0 neutral 0 None None).
  { subst r. destruct (py_value_cases text) as [D | [s [-> Hs]]].
    - left. now rewrite analyze_sentiment_degenerate.
    - right. destruct H as [H | [H | H]]; try discriminate H.
      + apply string_eqb_empty in Hs. cbn [truthy] in H. rewrite Hs in H.
        discriminate H.
      + now apply analyze_sentiment_empty_processed. }
  destruct E as [-> | ->]; cbn [neg neu pos compound confidence];
    repeat split; try reflexivity; intros E; vm_compute in E; discriminate E.
Qed.

(** ** The fallback path *)

Lemma label_of_compound_spec (c : Q) :
  (label_of_compound c = positive <-> (0.05 <= c)%Q)
  /\ (label_of_compound c = negative <-> (c <= -0.05)%Q)
  /\ (label_of_compound c = neutral <-> (-0.05 < c /\ c < 0.05)%Q)
  /\ label_of_compound c <> mixed.
Proof.
  unfold label_of_compound.
  destruct (Qle_bool 0.05 c) eqn:Hp.
  - apply Qle_bool_iff in Hp. repeat split; try discriminate; try auto.
    + intros Hn. exfalso. lra.
    + intros [_ Hlt]. exfalso. lra.
  - assert (Hp' : ~ (0.05 <= c)%Q) by (rewrite <- Qle_bool_iff; congruence).
    destruct (Qle_bool c (-0.05)) eqn:Hn.
    + apply Qle_bool_iff in Hn. repeat split; try discriminate; try auto.
      * intros H. contradiction.
      * intros [Hgt _]. exfalso. lra.
    + assert (Hn' : ~ (c <= -0.05)%Q) by (rewrite <- Qle_bool_iff; congruence).
      repeat split; try discriminate; try auto.
      * intros H. contradiction.
      * intros H. contradiction.
      * lra.
      * lra.
Qed.

(** Claim C3.  On a non-empty input on which no override rule fires, the
    label is positive iff the scorer's compound is at least 0.05, negative
    iff it is at most -0.05, and neutral otherwise; when the normalized text
    is empty the scorer is not consulted and the result is neutral with
    compound 0.  The label is never mixed on this path. *)
Theorem label_threshold_law (cache : Dict.t) (s : string) :
  s <> "" ->
  let p := fst (preprocess_text cache (PyStr s)) in
  let r := fst (analyze_sentiment cache (PyStr s)) in
  let c := score_compound (polarity_scores p) in
  _get_enhanced_sentiment s p = None ->
  (p = "" -> sentiment_label r = neutral /\ compound r = 0%Q)
  /\ (p <> "" ->
      (sentiment_label r = positive <-> (0.05 <= c)%Q)
      /\ (sentiment_label r = negative <-> (c <= -0.05)%Q)
      /\ (sentiment_label r = neutral <-> (-0.05 < c /\ c < 0.05)%Q)
      /\ compound r = py_round c 4
      /\ confidence r = py_round (Qabs c) 4)
  /\ sentiment_label r <> mixed.
Proof.
  intros Hs p r c Hnone.
  destruct (String.eqb_spec p "") as [Hp|Hp].
  - assert (E : r = mkResult 0 0 0 0 neutral 0 None None)
      by (now apply analyze_sentiment_empty_processed).
    rewrite E. cbn [sentiment_label compound].
    repeat split; try discriminate; contradiction.
  - assert (E : r = _) by (exact (analyze_sentiment_scorer cache s Hs Hp Hnone)).
    rewrite E. cbn [result_dict sentiment_label compound confidence].
    fold p. fold c.
    destruct (label_of_compound_spec c) as [H1 [H2 [H3 H4]]].
    repeat split; solve [ contradiction | apply H1; assumption
                        | apply H2; assumption | apply H3; assumption
                        | exact H4 ].
Qed.

(** ** Rounding *)

Lemma round_half_even_bounds (x : Q) :
  (inject_Z (round_half_even x) - (1 # 2) <= x)%Q
  /\ (x <= inject_Z (round_half_even x) + (1 # 2))%Q.
Proof.
  unfold round_half_even.
  pose proof (Qfloor_le x) as Hlo.
  pose proof (Qlt_floor x) as Hhi.
  rewrite inject_Z_plus in Hhi. change (inject_Z 1) with 1%Q in Hhi.
  destruct (Qcompare_spec (x - inject_Z (Qfloor x)) (1 # 2)) as [He|Hl|Hg].
  - destruct (Z.even (Qfloor x)).
    + split; lra.
    + rewrite inject_Z_plus. change (inject_Z 1) with 1%Q. split; lra.
  - split; lra.
  - rewrite inject_Z_plus. change (inject_Z 1) with 1%Q. split; lra.
Qed.

(** A rational strictly within one half of an integer rounds to it. *)
Lemma round_half_even_near (x : Q) (z : Z) :
  (inject_Z z - (1 # 2) < x)%Q -> (x < inject_Z z + (1 # 2))%Q ->
  round_half_even x = z.
Proof.
  intros Hlo Hhi.
  destruct (round_half_even_bounds x) as [Blo Bhi].
  assert (H1 : (inject_Z (round_half_even x) < inject_Z (z + 1))%Q)
    by (rewrite inject_Z_plus; change (inject_Z 1) with 1%Q; lra).
  assert (H2 : (inject_Z z < inject_Z (round_half_even x + 1))%Q)
    by (rewrite inject_Z_plus; change (inject_Z 1) with 1%Q; lra).
  rewrite <- Zlt_Qlt in H1, H2. lia.
Qed.

Lemma Qmake_scale (z : Z) (p : BinNums.positive) :
  (z # p == inject_Z z * (1 # p))%Q.
Proof. unfold Qeq, Qmult, inject_Z. simpl. lia. Qed.

(** Rounding to four decimals moves a number by at most 0.00005. *)
Lemma py_round_4_close (x : Q) :
  (x - (1 # 20000) <= py_round x 4)%Q /\ (py_round x 4 <= x + (1 # 20000))%Q.
Proof.
  change (py_round x 4)
    with (Qmake (round_half_even (x * inject_Z 10000)) 10000).
  destruct (round_half_even_bounds (x * inject_Z 10000)) as [Blo Bhi].
  rewrite (Qmake_scale (round_half_even (x * inject_Z 10000)) 10000).
  change (inject_Z 10000) with (10000 # 1)%Q in *.
  split; lra.
Qed.

(** A number within 0.005 of 1 rounds to 1 at two decimals. *)
Lemma py_round_2_one (x : Q) :
  ((995 # 1000) < x)%Q -> (x < (1005 # 1000))%Q ->
  (py_round x 2 == 1)%Q.
Proof.
  intros Hlo Hhi.
  change (py_round x 2) with (Qmake (round_half_even (x * inject_Z 100)) 100).
  rewrite (round_half_even_near (x * inject_Z 100) 100).
  - reflexivity.
  - change (inject_Z 100) with (100 # 1)%Q. lra.
  - change (inject_Z 100) with (100 # 1)%Q. lra.
Qed.

(** Every outcome of the rule chain is one of five fixed vectors; their
    three fractions add up to 1. *)
Lemma enhanced_sentiment_sum (original_text processed_text : string)
    (r : SentimentResult) :
  _get_enhanced_sentiment original_text processed_text = Some r ->
  (neg r + neu r + pos r == 1)%Q.
Proof.
  unfold _get_enhanced_sentiment. intros H.
  repeat match type of H with
         | context [if ?b then _ else _] =>
             destruct b; [try (injection H as <-; reflexivity)|]
         end;
    try (injection H as <-; reflexivity); try discriminate H.
Qed.

(** Claim C6.  For a non-empty normalized text, the result's neg, neu and
    pos add up to 1 after rounding to two decimals: a fired rule returns a
    fixed vector that sums to 1, and the fallback rounds to four decimals
    three scorer fractions that sum to 1. *)
Theorem score_sum_invariant (cache : Dict.t) (s : string) :
  s <> "" ->
  let p := fst (preprocess_text cache (PyStr s)) in
  let r := fst (analyze_sentiment cache (PyStr s)) in
  p <> "" ->
  (score_neg (polarity_scores p) + score_neu (polarity_scores p)
   + score_pos (polarity_scores p) == 1)%Q ->
  (py_round (neg r + neu r + pos r) 2 == 1)%Q.
Proof.
  intros Hs p r Hp Hsum.
  destruct (_get_enhanced_sentiment s p) as [e|] eqn:Hr.
  - assert (E : r = e) by (now apply analyze_sentiment_rule).
    rewrite E. pose proof (enhanced_sentiment_sum _ _ _ Hr) as H1.
    apply py_round_2_one; lra.
  - assert (E : r = _) by (exact (analyze_sentiment_scorer cache s Hs Hp Hr)).
    rewrite E. cbn [result_dict neg neu pos]. fold p.
    destruct (py_round_4_close (score_neg (polarity_scores p))) as [A1 A2].
    destruct (py_round_4_close (score_neu (polarity_scores p))) as [B1 B2].
    destruct (py_round_4_close (score_pos (polarity_scores p))) as [C1 C2].
    apply py_round_2_one; lra.
Qed.

(** ** The order of the rules *)

(** The chain returns the outcome of the first rule, in source order, whose
    trigger holds, and nothing when no trigger holds. *)
Lemma enhanced_sentiment_by_rule (original_text processed_text : string) :
  _get_enhanced_sentiment original_text processed_text =
    option_map (fun k => rule_outcome k original_text processed_text)
               (first_rule original_text processed_text).
Proof.
  unfold _get_enhanced_sentiment, first_rule.
  cbn [seq find].
  repeat match goal with
         | |- context [rule_trigger ?k original_text processed_text] =>
             let t := eval cbv beta iota delta [rule_trigger]
                        in (rule_trigger k original_text processed_text) in
             change (rule_trigger k original_text processed_text) with t
         end.
  cbv zeta.
  destruct (_detect_sarcasm original_text <? 0)%Z; [reflexivity|].
  destruct (negation_truthy
              (double_negation_loop double_negation_patterns
                 (Py.lower original_text))) eqn:Hd.
  - assert (Ht : negation_truthy (_handle_negation original_text) = true).
    { unfold _handle_negation.
      destruct (double_negation_loop double_negation_patterns
                  (Py.lower original_text)); [exact Hd | discriminate Hd]. }
    rewrite Ht. cbn [option_map rule_outcome]. unfold negation_outcome.
    destruct (existsb _ _); reflexivity.
  - destruct (negation_truthy (_handle_negation original_text)).
    { cbn [option_map rule_outcome]. unfold negation_outcome.
      destruct (existsb _ _); reflexivity. }
    repeat match goal with
           | |- context [if ?b then _ else _] =>
               destruct b; [reflexivity|]
           end.
    reflexivity.
Qed.

Lemma sarcasm_first (original_text processed_text : string) :
  rule_trigger 1 original_text processed_text = true ->
  first_rule original_text processed_text = Some 1
  /\ _get_enhanced_sentiment original_text processed_text
     = Some (negative_dict original_text processed_text).
Proof.
  intros H1.
  assert (F : first_rule original_text processed_text = Some 1).
  { unfold first_rule. cbn [seq find]. now rewrite H1. }
  split; [exact F|].
  rewrite enhanced_sentiment_by_rule, F. reflexivity.
Qed.

Lemma sarcasm_nonempty (s p : string) :
  rule_trigger 1 s p = true -> s <> "".
Proof. intros H ->. vm_compute in H. discriminate H. Qed.

(** Claim C4, as amended.  The chain returns the outcome of the first rule
    in source order whose trigger holds.  For a text that matches a sarcasm
    pattern (rule 1) and contains a positive-slang word (rule 16), rule 1 is
    that first rule, the chain returns rule 1's vector, and
    [analyze_sentiment] returns it whenever the normalized text is not
    empty; the label is then not positive. *)
Theorem sarcasm_rule_precedes_slang (cache : Dict.t) (s p : string) :
  _get_enhanced_sentiment s p
  = option_map (fun k => rule_outcome k s p) (first_rule s p)
  /\ (rule_trigger 1 s p = true ->
      rule_trigger 16 s p = true ->
      first_rule s p = Some 1
      /\ _get_enhanced_sentiment s p = Some (negative_dict s p)
      /\ (fst (preprocess_text cache (PyStr s)) <> "" ->
          let r := fst (analyze_sentiment cache (PyStr s)) in
          r = result_dict 0.8 0.1 0.1 (-0.7) negative 0.7 (PyStr s)
                          (fst (preprocess_text cache (PyStr s)))
          /\ sentiment_label r <> positive)).
Proof.
  split; [apply enhanced_sentiment_by_rule|].
  intros H1 _.
  destruct (sarcasm_first s p H1) as [F E].
  split; [exact F | split; [exact E|]].
  intros Hp r.
  assert (Er : r = negative_dict s (fst (preprocess_text cache (PyStr s)))).
  { apply analyze_sentiment_rule.
    - exact (sarcasm_nonempty s p H1).
    - exact Hp.
    - apply sarcasm_first. exact H1. }
  split; [exact Er | rewrite Er; discriminate].
Qed.

(** Claim C9.  The triggers test substring containment: "literally"
    contains no slang or idiom term as a word of its own, no rule before
    rule 16 fires on it, and yet rule 16 fires on the "lit" inside it, so
    that the result is the fixed positive vector and not a scorer result;
    likewise "messages" and rule 17 on the "ages" inside it. *)
Theorem substring_triggers (cache : Dict.t) (p : string) :
  has_standalone_term "literally" = false
  /\ has_standalone_term "messages" = false
  /\ first_rule "literally" p = Some 16
  /\ first_rule "messages" p = Some 17
  /\ (fst (preprocess_text cache (PyStr "literally")) <> "" ->
      fst (analyze_sentiment cache (PyStr "literally"))
      = result_dict 0.1 0.1 0.8 0.7 positive 0.7 (PyStr "literally")
                    (fst (preprocess_text cache (PyStr "literally"))))
  /\ (fst (preprocess_text cache (PyStr "messages")) <> "" ->
      fst (analyze_sentiment cache (PyStr "messages"))
      = result_dict 0.8 0.1 0.1 (-0.7) negative 0.7 (PyStr "messages")
                    (fst (preprocess_text cache (PyStr "messages")))).
Proof.
  assert (F1 : forall q, first_rule "literally" q = Some 16)
    by (intros q; vm_compute; reflexivity).
  assert (F2 : forall q, first_rule "messages" q = Some 17)
    by (intros q; vm_compute; reflexivity).
  repeat split; try (vm_compute; reflexivity); auto.
  - intros Hp. apply analyze_sentiment_rule; [discriminate | exact Hp |].
    rewrite enhanced_sentiment_by_rule, F1. reflexivity.
  - intros Hp. apply analyze_sentiment_rule; [discriminate | exact Hp |].
    rewrite enhanced_sentiment_by_rule, F2. reflexivity.
Qed.

(** ** Repeated calls *)

Lemma analyze_sentiment_cache (cache : Dict.t) (text : py_value) :
  snd (analyze_sentiment cache text) = snd (preprocess_text cache text).
Proof.
  destruct (py_value_cases text) as [D | [s [-> Hs]]].
  - now rewrite analyze_sentiment_degenerate, preprocess_text_degenerate.
  - rewrite (analyze_sentiment_str _ _ Hs).
    destruct (preprocess_text cache (PyStr s)) as [p c1]. cbn [snd].
    destruct (p =? ""); [reflexivity|].
    destruct (_get_enhanced_sentiment s p); reflexivity.
Qed.

(** The result depends on the cache only through the normalized text. *)
Lemma analyze_sentiment_same_processed (c1 c2 : Dict.t) (s : string) :
  s <> "" ->
  fst (preprocess_text c1 (PyStr s)) = fst (preprocess_text c2 (PyStr s)) ->
  fst (analyze_sentiment c1 (PyStr s)) = fst (analyze_sentiment c2 (PyStr s)).
Proof.
  intros Hs H. rewrite !(analyze_sentiment_str _ _ Hs).
  destruct (preprocess_text c1 (PyStr s)) as [p1 c1'].
  destruct (preprocess_text c2 (PyStr s)) as [p2 c2'].
  cbn [fst] in H. subst p2.
  destruct (p1 =? ""); [reflexivity|].
  destruct (_get_enhanced_sentiment s p1); reflexivity.
Qed.

Lemma analyze_sentiment_twice (cache : Dict.t) (text : py_value) :
  fst (analyze_sentiment (snd (analyze_sentiment cache text)) text)
  = fst (analyze_sentiment cache text).
Proof.
  destruct (py_value_cases text) as [D | [s [-> Hs]]].
  - now rewrite !analyze_sentiment_degenerate.
  - apply analyze_sentiment_same_processed; [exact Hs|].
    rewrite analyze_sentiment_cache.
    pose proof (preprocess_text_stores cache s Hs) as Hst.
    now rewrite (preprocess_text_hit _ _ _ Hs Hst).
Qed.

Lemma reachable_sound (cache : Dict.t) : reachable cache -> cache_sound cache.
Proof.
  induction 1 as [|cache text _ IH].
  - intros k v [].
  - destruct (preprocess_text_cache_shape cache text)
      as [-> | [s [_ [Hs [_ ->]]]]]; [exact IH|].
    intros k v Hin. apply in_app_or in Hin. destruct Hin as [Hin | [E|[]]].
    + apply IH.
      destruct (_max_cache_size <=? List.length cache)%nat; [|exact Hin].
      destruct cache; [destruct Hin | now right].
    + injection E as <- <-. now exists s.
Qed.

Lemma slice_to_short (s s' : string) :
  String.length s < 100 -> Py.slice_to 100 s' = s -> s' = s.
Proof.
  intros Hlen E.
  assert (L : String.length (Py.slice_to 100 s') = String.length s)
    by now rewrite E.
  rewrite slice_to_length in L.
  rewrite <- E. symmetry. apply slice_to_all. lia.
Qed.

(** In a reachable cache a text shorter than 100 characters, which is its
    own key, can only find its own normalization. *)
Lemma preprocess_text_short (cache : Dict.t) (s : string) :
  reachable cache -> s <> "" -> String.length s < 100 ->
  fst (preprocess_text cache (PyStr s)) = preprocess_pipeline s.
Proof.
  intros Hr Hs Hlen.
  destruct (Dict.get (Py.slice_to 100 s) cache) as [v|] eqn:G.
  - rewrite (preprocess_text_hit _ _ _ Hs G). cbn [fst].
    destruct (reachable_sound cache Hr _ _ (dict_get_In _ _ _ G))
      as [s' [_ [Hk ->]]].
    rewrite (slice_to_all 100 s) in Hk by lia.
    now rewrite (slice_to_short s s' Hlen Hk).
  - now rewrite (preprocess_text_miss _ _ Hs G).
Qed.

(** Claim C7, as amended.  A call that directly follows a call with the same
    text returns the same result.  Whatever calls were made before, a text
    shorter than 100 characters (and any empty or non-string input) gets the
    same result in every cache state the analyzer can reach. *)
Theorem repeated_call_determinism (cache cache' : Dict.t) (text : py_value) :
  fst (analyze_sentiment (snd (analyze_sentiment cache text)) text)
  = fst (analyze_sentiment cache text)
  /\ (reachable cache -> reachable cache' ->
      (forall s, text = PyStr s -> String.length s < 100) ->
      fst (analyze_sentiment cache text) = fst (analyze_sentiment cache' text)).
Proof.
  split; [apply analyze_sentiment_twice|].
  intros Hr Hr' Hshort.
  destruct (py_value_cases text) as [D | [s [-> Hs]]].
  - now rewrite !analyze_sentiment_degenerate.
  - apply analyze_sentiment_same_processed; [exact Hs|].
    rewrite !preprocess_text_short; auto.
Qed.

(** ** Normalizing a text in normal form *)

Ltac by_cases_on_char c :=
  destruct c as [[] [] [] [] [] [] [] []]; vm_compute;
  try reflexivity; try discriminate; auto.

Lemma normal_char_lower (c : ascii) :
  normal_char c = true -> Py.lower_char c = c.
Proof. by_cases_on_char c. Qed.

Lemma normal_char_plain (c : ascii) :
  normal_char c = true -> Re.plain_char c = true.
Proof. by_cases_on_char c. Qed.

Lemma normal_char_space (c : ascii) :
  normal_char c = true -> Py.is_space c = true -> c = " "%char.
Proof. by_cases_on_char c. Qed.

Lemma normal_char_not_at (c : ascii) :
  normal_char c = true -> Ascii.eqb c "@" = false.
Proof. by_cases_on_char c. Qed.

Lemma normal_char_not_slash (c : ascii) :
  normal_char c = true -> Ascii.eqb c "/" = false.
Proof. by_cases_on_char c. Qed.

Lemma all_chars_cons (p : ascii -> bool) (c : ascii) (s : string) :
  all_chars p (String c s) = true <-> p c = true /\ all_chars p s = true.
Proof. cbn [all_chars]. apply andb_true_iff. Qed.

Lemma lower_normal (s : string) :
  all_chars normal_char s = true -> Py.lower s = s.
Proof.
  induction s as [|c s IH]; [reflexivity|].
  rewrite all_chars_cons. intros [Hc Hs]. cbn [Py.lower].
  now rewrite (normal_char_lower c Hc), IH.
Qed.

Lemma expand_with_absent (table : list (string * string))
    (text_lower text : string) :
  any_in (map fst table) text_lower = false ->
  expand_with table text_lower text = text.
Proof.
  unfold expand_with, any_in. revert text.
  induction table as [|[k m] table IH]; intros text H; [reflexivity|].
  cbn [map existsb fst] in H. apply orb_false_iff in H. destruct H as [Hk H].
  cbn [fold_left fst snd]. rewrite Hk. now apply IH.
Qed.

(** A substitution whose pattern matches nowhere leaves the text alone. *)
Lemma sub_no_match (m : string -> option nat) (repl : string)
    (P : string -> Prop) :
  (forall c s, P (String c s) -> m (String c s) = None /\ P s) ->
  forall s, P s -> Py.sub m repl s = s.
Proof.
  intros Hstep. unfold Py.sub.
  induction s as [|c s IH]; intros HP; [reflexivity|].
  destruct (Hstep c s HP) as [Hm HP'].
  cbn [Py.sub_from]. rewrite Hm. now rewrite IH.
Qed.

Lemma startswith_cons (a : ascii) (p : string) (s : string) :
  Py.startswith (String a p) s = true ->
  exists s', s = String a s' /\ Py.startswith p s' = true.
Proof.
  destruct s as [|b s]; [discriminate|]. cbn [Py.startswith].
  intros H. apply andb_true_iff in H. destruct H as [E H].
  apply Ascii.eqb_eq in E. subst b. now exists s.
Qed.

Lemma url_tail_normal (r : string) :
  all_chars normal_char r = true -> Re.url_tail r = None.
Proof.
  intros H. unfold Re.url_tail.
  destruct (Py.startswith "://" r) eqn:E; [|reflexivity].
  apply startswith_cons in E. destruct E as [r1 [-> E]].
  apply startswith_cons in E. destruct E as [r2 [-> _]].
  vm_compute in H. discriminate H.
Qed.

Lemma url_pattern_normal (s : string) :
  all_chars normal_char s = true -> Re.url_pattern s = None.
Proof.
  intros H. unfold Re.url_pattern.
  destruct (Py.startswith "http" s) eqn:E; [|reflexivity].
  apply startswith_cons in E. destruct E as [s1 [-> E]].
  apply startswith_cons in E. destruct E as [s2 [-> E]].
  apply startswith_cons in E. destruct E as [s3 [-> E]].
  apply startswith_cons in E. destruct E as [r [-> _]].
  cbn [Py.slice_from].
  repeat (apply all_chars_cons in H; destruct H as [_ H]).
  rewrite (url_tail_normal r H).
  destruct (Py.startswith "s" r) eqn:Es; [|reflexivity].
  apply startswith_cons in Es. destruct Es as [r' [-> _]].
  cbn [Py.slice_from].
  apply all_chars_cons in H. destruct H as [_ H].
  now rewrite (url_tail_normal r' H).
Qed.

Lemma at_then_more_normal (s : string) :
  all_chars normal_char s = true -> Re.at_then_more s = false.
Proof.
  induction s as [|c s IH]; [reflexivity|].
  intros H. apply all_chars_cons in H. destruct H as [Hc Hs].
  destruct s as [|c' s]; [reflexivity|].
  change (Re.at_then_more (String c (String c' s)))
    with (Ascii.eqb c "@" || Re.at_then_more (String c' s)).
  now rewrite (normal_char_not_at c Hc), (IH Hs).
Qed.

Lemma all_chars_slice_to (p : ascii -> bool) (n : nat) (s : string) :
  all_chars p s = true -> all_chars p (Py.slice_to n s) = true.
Proof.
  revert s. induction n as [|n IH]; intros [|c s] H; try reflexivity.
  change (Py.slice_to (S n) (String c s)) with (String c (Py.slice_to n s)).
  apply all_chars_cons in H. destruct H as [Hc Hs].
  apply all_chars_cons. split; [exact Hc | now apply IH].
Qed.

Lemma email_pattern_normal (s : string) :
  all_chars normal_char s = true -> Re.email_pattern s = None.
Proof.
  intros H. unfold Re.email_pattern.
  pose proof (all_chars_slice_to normal_char
                (Py.span_len Re.non_space s) s H) as Hrun.
  destruct (Py.slice_to (Py.span_len Re.non_space s) s) as [|c rest];
    [reflexivity|].
  apply all_chars_cons in Hrun. destruct Hrun as [_ Hrest].
  now rewrite (at_then_more_normal rest Hrest).
Qed.

Lemma special_chars_pattern_normal (c : ascii) (s : string) :
  normal_char c = true -> Re.special_chars_pattern (String c s) = None.
Proof.
  intros H. unfold Re.special_chars_pattern.
  now rewrite (normal_char_plain c H).
Qed.

Lemma contains_tail (sub : string) (c : ascii) (s : string) :
  Py.contains sub (String c s) = false ->
  Py.startswith sub (String c s) = false /\ Py.contains sub s = false.
Proof. cbn [Py.contains]. apply orb_false_iff. Qed.

(** Single spaces are matched by [\s+] and replaced by themselves. *)
Lemma whitespace_sub_normal (s : string) :
  all_chars normal_char s = true ->
  Py.contains "  " s = false ->
  Py.sub Re.whitespace_pattern " " s = s.
Proof.
  unfold Py.sub. induction s as [|c s IH]; [reflexivity|].
  intros H Hd.
  apply all_chars_cons in H. destruct H as [Hc Hs].
  apply contains_tail in Hd. destruct Hd as [Hstart Hd].
  cbn [Py.sub_from].
  destruct (Py.is_space c) eqn:Esp.
  - pose proof (normal_char_space c Hc Esp) as ->.
    assert (Hz : Py.span_len Py.is_space s = 0).
    { destruct s as [|c' s]; [reflexivity|]. cbn [Py.span_len].
      destruct (Py.is_space c') eqn:Esp'; [|reflexivity].
      apply all_chars_cons in Hs. destruct Hs as [Hc' _].
      pose proof (normal_char_space c' Hc' Esp') as ->.
      discriminate Hstart. }
    assert (Hm : Re.whitespace_pattern (String " " s) = Some 1).
    { unfold Re.whitespace_pattern. cbn [Py.span_len].
      rewrite Esp, Hz. reflexivity. }
    rewrite Hm. cbn [append]. now rewrite IH.
  - assert (Hm : Re.whitespace_pattern (String c s) = None).
    { unfold Re.whitespace_pattern. cbn [Py.span_len].
      rewrite Esp. reflexivity. }
    rewrite Hm. now rewrite IH.
Qed.

Lemma rstrip_no_trailing_space (s : string) :
  last_is_space s = false -> Py.rstrip s = s.
Proof.
  induction s as [|c s IH]; [reflexivity|].
  intros H. cbn [Py.rstrip]. destruct s as [|c' s].
  - cbn [last_is_space] in H. cbn [Py.rstrip]. now rewrite H.
  - change (last_is_space (String c (String c' s)))
      with (last_is_space (String c' s)) in H.
    rewrite (IH H). reflexivity.
Qed.

Lemma strip_normal (s : string) :
  all_chars normal_char s = true ->
  Py.startswith " " s = false ->
  last_is_space s = false ->
  Py.strip s = s.
Proof.
  intros H Hstart Hlast. unfold Py.strip.
  assert (Hd : Py.drop_while Py.is_space s = s).
  { destruct s as [|c s]; [reflexivity|]. cbn [Py.drop_while].
    destruct (Py.is_space c) eqn:Esp; [|reflexivity].
    apply all_chars_cons in H. destruct H as [Hc _].
    pose proof (normal_char_space c Hc Esp) as ->. discriminate Hstart. }
  rewrite Hd. now apply rstrip_no_trailing_space.
Qed.

(** The pipeline up to tokenization is the identity on a normal form. *)
Lemma preprocess_pipeline_normal (s : string) :
  normal_form s -> preprocess_pipeline s = s.
Proof.
  intros (Hchars & Hstart & Hlast & Hdouble & Hterms & Hre).
  unfold any_in in Hterms. rewrite existsb_app in Hterms.
  apply orb_false_iff in Hterms. destruct Hterms as [Hidioms Hslang].
  unfold preprocess_pipeline.
  rewrite (lower_normal s Hchars).
  unfold _expand_slang_and_idioms. rewrite (lower_normal s Hchars).
  rewrite (expand_with_absent idioms s s Hidioms).
  rewrite (expand_with_absent slang_words s s Hslang).
  rewrite (sub_no_match Re.url_pattern ""
             (fun t => all_chars normal_char t = true)); auto.
  2:{ intros c t Ht. split; [now apply url_pattern_normal|].
      now apply all_chars_cons in Ht. }
  rewrite (sub_no_match Re.email_pattern ""
             (fun t => all_chars normal_char t = true)); auto.
  2:{ intros c t Ht. split; [now apply email_pattern_normal|].
      now apply all_chars_cons in Ht. }
  rewrite (sub_no_match Re.special_chars_pattern " "
             (fun t => all_chars normal_char t = true)); auto.
  2:{ intros c t Ht. apply all_chars_cons in Ht. destruct Ht as [Hc Ht].
      split; [now apply special_chars_pattern_normal | exact Ht]. }
  rewrite (whitespace_sub_normal s Hchars Hdouble).
  rewrite (strip_normal s Hchars Hstart Hlast).
  exact Hre.
Qed.

(** Claim C1, as amended.  Normalizing a text that is in normal form gives
    it back: on a cache miss, and in every reachable cache when the text is
    shorter than 100 characters. *)
Theorem normalization_noop_on_normal_form (cache : Dict.t) (s : string) :
  normal_form s ->
  Dict.mem (Py.slice_to 100 s) cache = false
  \/ (reachable cache /\ String.length s < 100) ->
  preprocess_pipeline s = s
  /\ fst (preprocess_text cache (PyStr s)) = s.
Proof.
  intros Hnf Hcache.
  pose proof (preprocess_pipeline_normal s Hnf) as Hp.
  split; [exact Hp|].
  destruct (String.eqb_spec s "") as [->|Hs].
  - now rewrite preprocess_text_degenerate by (left; reflexivity).
  - destruct Hcache as [Hmiss | [Hr Hlen]].
    + unfold Dict.mem in Hmiss.
      destruct (Dict.get (Py.slice_to 100 s) cache) eqn:G;
        [discriminate Hmiss|].
      now rewrite (preprocess_text_miss _ _ Hs G).
    + now rewrite preprocess_text_short.
Qed.

(** ** Expansion can create a new slang term

    "coolope" contains "cool" but not "dope"; replacing "cool" by "good"
    makes "goodope", which contains "dope".  For any tokenizer, stop list and
    lemmatizer that leave the two unknown words "goodope" and "gooexcellent"
    alone, the pipeline maps "coolope" to "goodope" and "goodope" to
    "gooexcellent". *)
Lemma pipeline_coolope :
  word_tokenize "goodope" = ["goodope"] ->
  word_tokenize "gooexcellent" = ["gooexcellent"] ->
  stop_words "goodope" = false ->
  stop_words "gooexcellent" = false ->
  lemmatize "goodope" = "goodope" ->
  lemmatize "gooexcellent" = "gooexcellent" ->
  preprocess_pipeline "coolope" = "goodope"
  /\ preprocess_pipeline "goodope" = "gooexcellent".
Proof.
  intros T1 T2 S1 S2 L1 L2. unfold preprocess_pipeline. split.
  - match goal with
    | |- context [word_tokenize ?t] =>
        let v := eval vm_compute in t in change t with v
    end.
    rewrite T1. cbn [filter]. change (Py.lower "goodope") with "goodope".
    rewrite S1. cbn [negb map]. rewrite L1. reflexivity.
  - match goal with
    | |- context [word_tokenize ?t] =>
        let v := eval vm_compute in t in change t with v
    end.
    rewrite T2. cbn [filter].
    change (Py.lower "gooexcellent") with "gooexcellent".
    rewrite S2. cbn [negb map]. rewrite L2. reflexivity.
Qed.

(** ** Side conditions, decided *)

Lemma reachable_preprocess_all (texts : list py_value) :
  forall cache, reachable cache -> reachable (preprocess_all cache texts).
Proof.
  unfold preprocess_all.
  induction texts as [|t ts IH]; intros cache H; [exact H|].
  cbn [fold_left]. apply IH. now apply reachable_step.
Qed.

Lemma nodupb_sound (l : list string) : nodupb l = true -> NoDup l.
Proof.
  induction l as [|x l IH]; intros H; [constructor|].
  cbn [nodupb] in H. apply andb_true_iff in H. destruct H as [Hx Hl].
  constructor; [|now apply IH].
  intros Hin. apply negb_true_iff in Hx.
  assert (Ex : existsb (String.eqb x) l = true).
  { apply existsb_exists. exists x. split; [exact Hin | apply String.eqb_refl]. }
  congruence.
Qed.

Lemma all_nonempty_sound (l : list string) :
  all_nonempty l = true -> Forall (fun s => s <> "") l.
Proof.
  unfold all_nonempty. intros H. apply Forall_forall. intros s Hin.
  rewrite forallb_forall in H. specialize (H s Hin).
  apply negb_true_iff in H. now apply string_eqb_empty.
Qed.

(** * Further properties of the analyzer *)

(** ** [_handle_negation] *)

Lemma lower_char_idempotent (c : ascii) :
  Py.lower_char (Py.lower_char c) = Py.lower_char c.
Proof. by_cases_on_char c. Qed.

Lemma lower_idempotent (s : string) : Py.lower (Py.lower s) = Py.lower s.
Proof.
  induction s as [|c s IH]; [reflexivity|].
  cbn [Py.lower]. now rewrite lower_char_idempotent, IH.
Qed.

Lemma startswith_app_l (a b s : string) :
  Py.startswith (a ++ b) s = true -> Py.startswith a s = true.
Proof.
  revert s. induction a as [|c a IH]; intros s H; [reflexivity|].
  destruct s as [|d s]; [discriminate H|].
  cbn [append Py.startswith] in *.
  apply andb_true_iff in H. destruct H as [E H].
  rewrite E. cbn [andb]. now apply IH.
Qed.

Lemma contains_app_l (a b s : string) :
  Py.contains (a ++ b) s = true -> Py.contains a s = true.
Proof.
  induction s as [|c s IH]; cbn [Py.contains]; intros H.
  - rewrite orb_false_r in *. now apply startswith_app_l with (b := b).
  - apply orb_true_iff in H. apply orb_true_iff. destruct H as [H|H].
    + left. now apply startswith_app_l with (b := b).
    + right. now apply IH.
Qed.

(** The loop over the negation words, whatever list they are walked in:
    the first hit of [negation_patterns] if one of the words occurs. *)
Lemma negation_loop_any (words : list string) (text_lower : string) :
  negation_loop words text_lower =
    if any_in words text_lower
    then first_search negation_patterns text_lower
    else None.
Proof.
  unfold any_in. induction words as [|w ws IH]; [reflexivity|].
  cbn [negation_loop existsb].
  destruct (Py.contains w text_lower); cbn [orb]; [|exact IH].
  destruct (first_search negation_patterns text_lower) eqn:F; [reflexivity|].
  rewrite IH. now destruct (existsb _ ws).
Qed.

Lemma any_in_permutation (ws ws' : list string) (text : string) :
  Permutation ws ws' -> any_in ws text = any_in ws' text.
Proof.
  unfold any_in. induction 1 as [| x l l' _ IH | x y l | l l' l'' _ IH1 _ IH2];
    cbn [existsb].
  - reflexivity.
  - now rewrite IH.
  - now rewrite !orb_assoc, (orb_comm (Py.contains y text)).
  - now rewrite IH1.
Qed.

(** Every simple-negation pattern contains the word "not". *)
Lemma negation_pattern_has_not (text : string) (r : string) :
  first_search negation_patterns (Py.lower text) = Some r ->
  Py.contains "not" (Py.lower text) = true.
Proof.
  unfold negation_patterns. cbn [first_search]. unfold Re.search.
  rewrite lower_idempotent. intros H.
  repeat match type of H with
         | context [if Py.contains (Py.lower ?a) ?t then _ else _] =>
             let E := fresh "E" in
             destruct (Py.contains (Py.lower a) t) eqn:E;
               [apply (contains_app_l "not" _ _ E)|]
         end.
  discriminate H.
Qed.

Lemma negation_loop_gate (text : string) :
  negation_loop negation_words (Py.lower text)
  = first_search negation_patterns (Py.lower text).
Proof.
  rewrite negation_loop_any.
  destruct (first_search negation_patterns (Py.lower text)) as [r|] eqn:F.
  - pose proof (negation_pattern_has_not text r F) as Hnot.
    unfold any_in, negation_words. cbn [existsb]. now rewrite Hnot.
  - now destruct (any_in negation_words (Py.lower text)).
Qed.

(** X1.  The simple-negation step of [_handle_negation] does not depend on
    the order in which the set of negation words is walked, and the test on
    the negation words never blocks a pattern: the step returns the first
    pattern found in the lower-cased text. *)
Theorem negation_words_order_irrelevant (words : list string) (text : string) :
  Permutation words negation_words ->
  negation_loop words (Py.lower text)
  = negation_loop negation_words (Py.lower text)
  /\ negation_loop words (Py.lower text)
     = first_search negation_patterns (Py.lower text).
Proof.
  intros Hperm.
  assert (E : negation_loop words (Py.lower text)
              = negation_loop negation_words (Py.lower text)).
  { rewrite !negation_loop_any.
    now rewrite (any_in_permutation _ _ _ Hperm). }
  split; [exact E|]. rewrite E. apply negation_loop_gate.
Qed.

Lemma double_negation_values (text_lower r : string) :
  double_negation_loop double_negation_patterns text_lower = Some r ->
  r = "good" \/ r = "like" \/ r = "happy".
Proof.
  unfold double_negation_patterns. cbn [double_negation_loop]. intros H.
  repeat match type of H with
         | context [if ?b then _ else _] =>
             destruct b; [injection H as <-; auto|]
         end.
  discriminate H.
Qed.

Lemma double_negation_none (text_lower : string) :
  double_negation_loop double_negation_patterns text_lower = None ->
  Py.contains "not bad" text_lower = false.
Proof.
  unfold double_negation_patterns. cbn [double_negation_loop].
  destruct (Py.contains "not bad" text_lower); [discriminate | reflexivity].
Qed.

Lemma simple_negation_values (text r : string) :
  double_negation_loop double_negation_patterns (Py.lower text) = None ->
  first_search negation_patterns (Py.lower text) = Some r ->
  r = "bad".
Proof.
  intros Hd. apply double_negation_none in Hd.
  unfold negation_patterns. cbn [first_search]. unfold Re.search.
  rewrite lower_idempotent.
  change (Py.lower "not bad") with "not bad". rewrite Hd.
  intros H.
  repeat match type of H with
         | context [if ?b then _ else _] =>
             destruct b; [injection H as <-; reflexivity|]
         end.
  discriminate H.
Qed.

(** What [_handle_negation] can return, and from which of its two steps. *)
Lemma handle_negation_values (text r : string) :
  _handle_negation text = Some r ->
  (double_negation_loop double_negation_patterns (Py.lower text) = Some r
   /\ (r = "good" \/ r = "like" \/ r = "happy"))
  \/ (double_negation_loop double_negation_patterns (Py.lower text) = None
      /\ r = "bad").
Proof.
  unfold _handle_negation.
  destruct (double_negation_loop double_negation_patterns (Py.lower text))
    as [d|] eqn:Hd.
  - intros [= ->]. left. split; [reflexivity|].
    now apply double_negation_values with (text_lower := Py.lower text).
  - rewrite negation_loop_gate. intros H. right. split; [reflexivity|].
    now apply simple_negation_values with (text := text).
Qed.

Lemma first_rule_two (s p : string) :
  first_rule s p = Some 2 ->
  rule_trigger 1 s p = false /\ rule_trigger 2 s p = true.
Proof.
  unfold first_rule. cbn [seq find].
  destruct (rule_trigger 1 s p); [discriminate|].
  destruct (rule_trigger 2 s p); [auto|].
  intros H.
  repeat match type of H with
         | context [if ?b then _ else _] => destruct b; [discriminate H|]
         end.
  discriminate H.
Qed.

Lemma first_rule_three (s p : string) :
  first_rule s p = Some 3 ->
  rule_trigger 2 s p = false /\ rule_trigger 3 s p = true.
Proof.
  unfold first_rule. cbn [seq find].
  destruct (rule_trigger 1 s p); [discriminate|].
  destruct (rule_trigger 2 s p); [discriminate|].
  destruct (rule_trigger 3 s p); [auto|].
  intros H.
  repeat match type of H with
         | context [if ?b then _ else _] => destruct b; [discriminate H|]
         end.
  discriminate H.
Qed.

(** X2.  [_handle_negation] returns "good", "like" or "happy" from its
    double-negation list and only "bad" from its simple-negation patterns
    (the pattern "not bad" is always taken by the double-negation list
    first).  So in the chain a double negation always gives the positive
    vector and a simple negation always the negative one. *)
Theorem negation_verdicts (s p r : string) :
  (_handle_negation s = Some r ->
   r = "good" \/ r = "like" \/ r = "happy" \/ r = "bad")
  /\ (first_rule s p = Some 2 ->
      _get_enhanced_sentiment s p = Some (positive_dict s p))
  /\ (first_rule s p = Some 3 ->
      _get_enhanced_sentiment s p = Some (negative_dict s p)).
Proof.
  split; [|split].
  - intros H. destruct (handle_negation_values s r H) as [[_ V] | [_ V]].
    + destruct V as [V | [V | V]];
        [left | right; left | right; right; left]; exact V.
    + right; right; right; exact V.
  - intros F. rewrite enhanced_sentiment_by_rule, F.
    cbn [option_map rule_outcome]. unfold negation_outcome.
    destruct (first_rule_two s p F) as [_ T2].
    cbn [rule_trigger] in T2.
    destruct (double_negation_loop double_negation_patterns (Py.lower s))
      as [d|] eqn:Hd; [|discriminate T2].
    assert (Hh : _handle_negation s = Some d)
      by (unfold _handle_negation; now rewrite Hd).
    rewrite Hh.
    destruct (double_negation_values _ _ Hd) as [-> | [-> | ->]];
      reflexivity.
  - intros F. rewrite enhanced_sentiment_by_rule, F.
    cbn [option_map rule_outcome]. unfold negation_outcome.
    destruct (first_rule_three s p F) as [T2 T3].
    cbn [rule_trigger] in T2, T3.
    destruct (_handle_negation s) as [d|] eqn:Hh; [|discriminate T3].
    destruct (handle_negation_values s d Hh) as [[Hd V] | [_ ->]].
    + rewrite Hd in T2. destruct V as [-> | [-> | ->]]; discriminate T2.
    + reflexivity.
Qed.

(** ** Letter case *)






Lemma find_ext_in {A : Type} (f g : A -> bool) (l : list A) :
  (forall x, f x = g x) -> find f l = find g l.
Proof.
  intros H. induction l as [|x l IH]; [reflexivity|].
  cbn [find]. now rewrite H, IH.
Qed.






(** ** The text handed to the tokenizer *)

Lemma lower_char_not_upper (c : ascii) : not_upper (Py.lower_char c) = true.
Proof. by_cases_on_char c. Qed.

Lemma plain_lower_normal (c : ascii) :
  plain_lower c = true -> Py.is_space c = false -> normal_char c = true.
Proof. by_cases_on_char c. Qed.

Lemma not_upper_plain_lower (c : ascii) :
  not_upper c = true -> Re.plain_char c = true -> plain_lower c = true.
Proof. unfold plain_lower. now intros -> ->. Qed.

Lemma all_chars_app (p : ascii -> bool) (a b : string) :
  all_chars p (a ++ b) = all_chars p a && all_chars p b.
Proof.
  induction a as [|c a IH]; [reflexivity|].
  cbn [append all_chars]. now rewrite IH, andb_assoc.
Qed.

Lemma lower_not_upper (s : string) : all_chars not_upper (Py.lower s) = true.
Proof.
  induction s as [|c s IH]; [reflexivity|].
  cbn [Py.lower all_chars]. now rewrite lower_char_not_upper, IH.
Qed.

(** A substitution only writes characters of the text and of the
    replacement. *)
Lemma all_chars_sub_from (p : ascii -> bool) (m : string -> option nat)
    (repl : string) :
  all_chars p repl = true ->
  forall (s : string) (skip : nat),
    all_chars p s = true -> all_chars p (Py.sub_from m repl skip s) = true.
Proof.
  intros Hr. induction s as [|c s IH]; intros skip H; [reflexivity|].
  apply all_chars_cons in H. destruct H as [Hc Hs].
  cbn [Py.sub_from]. destruct skip as [|k]; [|now apply IH].
  destruct (m (String c s)) as [[|n]|].
  - apply all_chars_cons. split; [exact Hc | now apply IH].
  - rewrite all_chars_app, Hr. now apply IH.
  - apply all_chars_cons. split; [exact Hc | now apply IH].
Qed.

Lemma all_chars_interleave (p : ascii -> bool) (new s : string) :
  all_chars p new = true -> all_chars p s = true ->
  all_chars p (Py.interleave new s) = true.
Proof.
  intros Hn. induction s as [|c s IH]; intros H; [exact Hn|].
  apply all_chars_cons in H. destruct H as [Hc Hs].
  cbn [Py.interleave]. rewrite all_chars_app, Hn.
  apply all_chars_cons. split; [exact Hc | now apply IH].
Qed.

Lemma all_chars_replace (p : ascii -> bool) (old new s : string) :
  all_chars p new = true -> all_chars p s = true ->
  all_chars p (Py.replace old new s) = true.
Proof.
  intros Hn Hs. unfold Py.replace. destruct old.
  - now apply all_chars_interleave.
  - now apply all_chars_sub_from.
Qed.

Lemma all_chars_expand_with (p : ascii -> bool)
    (table : list (string * string)) (text_lower : string) :
  forallb (fun entry => all_chars p (snd entry)) table = true ->
  forall text, all_chars p text = true ->
    all_chars p (expand_with table text_lower text) = true.
Proof.
  unfold expand_with. induction table as [|[k m] table IH]; intros Ht text H;
    [exact H|].
  cbn [forallb snd] in Ht. apply andb_true_iff in Ht. destruct Ht as [Hm Ht].
  cbn [fold_left fst snd]. apply IH; [exact Ht|].
  destruct (Py.contains k text_lower); [|exact H].
  now apply all_chars_replace.
Qed.

Lemma expand_not_upper (text : string) :
  all_chars not_upper text = true ->
  all_chars not_upper (_expand_slang_and_idioms text) = true.
Proof.
  intros H. unfold _expand_slang_and_idioms.
  apply all_chars_expand_with; [reflexivity|].
  apply all_chars_expand_with; [reflexivity | exact H].
Qed.

(** After [special_chars_pattern] only plain characters are left. *)
Lemma special_sub_plain (s : string) :
  all_chars not_upper s = true ->
  all_chars plain_lower (Py.sub Re.special_chars_pattern " " s) = true.
Proof.
  unfold Py.sub. induction s as [|c s IH]; intros H; [reflexivity|].
  apply all_chars_cons in H. destruct H as [Hc Hs].
  cbn [Py.sub_from]. unfold Re.special_chars_pattern.
  destruct (Re.plain_char c) eqn:Ep.
  - apply all_chars_cons. split; [now apply not_upper_plain_lower | now apply IH].
  - cbn [append]. apply all_chars_cons. split; [reflexivity | now apply IH].
Qed.

(** *** Collapsing white space *)

Lemma drop_while_length (p : ascii -> bool) (s : string) :
  String.length (Py.drop_while p s) <= String.length s.
Proof.
  induction s as [|c s IH]; [auto|]. cbn [Py.drop_while].
  destruct (p c); cbn [String.length]; lia.
Qed.

Lemma drop_while_head (s : string) :
  match Py.drop_while Py.is_space s with
  | EmptyString => True
  | String c _ => Py.is_space c = false
  end.
Proof.
  induction s as [|c s IH]; [exact I|]. cbn [Py.drop_while].
  destruct (Py.is_space c) eqn:E; [exact IH | exact E].
Qed.

Lemma all_chars_drop_while (p q : ascii -> bool) (s : string) :
  all_chars p s = true -> all_chars p (Py.drop_while q s) = true.
Proof.
  induction s as [|c s IH]; intros H; [reflexivity|].
  cbn [Py.drop_while]. destruct (q c); [|exact H].
  apply all_chars_cons in H. now apply IH.
Qed.

Lemma whitespace_skip (s : string) :
  Py.sub_from Re.whitespace_pattern " " (Py.span_len Py.is_space s) s
  = Py.sub_from Re.whitespace_pattern " " 0 (Py.drop_while Py.is_space s).
Proof.
  induction s as [|c s IH]; [reflexivity|].
  cbn [Py.span_len Py.drop_while].
  destruct (Py.is_space c); [|reflexivity].
  cbn [Py.sub_from]. exact IH.
Qed.

Lemma whitespace_step_space (c : ascii) (s : string) :
  Py.is_space c = true ->
  Py.sub Re.whitespace_pattern " " (String c s)
  = String " " (Py.sub Re.whitespace_pattern " " (Py.drop_while Py.is_space s)).
Proof.
  intros E. unfold Py.sub. cbn [Py.sub_from].
  assert (Hm : Re.whitespace_pattern (String c s)
               = Some (S (Py.span_len Py.is_space s))).
  { unfold Re.whitespace_pattern. cbn [Py.span_len]. now rewrite E. }
  rewrite Hm. cbn [append]. now rewrite whitespace_skip.
Qed.

Lemma whitespace_step_other (c : ascii) (s : string) :
  Py.is_space c = false ->
  Py.sub Re.whitespace_pattern " " (String c s)
  = String c (Py.sub Re.whitespace_pattern " " s).
Proof.
  intros E. unfold Py.sub. cbn [Py.sub_from].
  assert (Hm : Re.whitespace_pattern (String c s) = None).
  { unfold Re.whitespace_pattern. cbn [Py.span_len]. now rewrite E. }
  now rewrite Hm.
Qed.

(** After [whitespace_pattern] the only white space left is single spaces,
    and the result starts with a space only if the text started with white
    space. *)
Lemma whitespace_sub_collapsed (n : nat) :
  forall s : string,
    String.length s <= n ->
    all_chars plain_lower s = true ->
    let r := Py.sub Re.whitespace_pattern " " s in
    all_chars normal_char r = true
    /\ Py.contains "  " r = false
    /\ (Py.startswith " " r = true ->
        match s with
        | EmptyString => False
        | String c _ => Py.is_space c = true
        end).
Proof.
  induction n as [|n IH]; intros s Hlen H r; subst r.
  - destruct s; [|cbn in Hlen; lia]. repeat split; try reflexivity.
    intros E. discriminate E.
  - destruct s as [|c s].
    { repeat split; try reflexivity. intros E. discriminate E. }
    cbn [String.length] in Hlen.
    apply all_chars_cons in H. destruct H as [Hc Hs].
    destruct (Py.is_space c) eqn:Esp.
    + rewrite (whitespace_step_space c s Esp).
      pose proof (drop_while_length Py.is_space s) as Hd.
      pose proof (drop_while_head s) as Hh.
      destruct (IH (Py.drop_while Py.is_space s)) as [A [B C]];
        [lia | now apply all_chars_drop_while |].
      assert (Hns : Py.startswith " "
                      (Py.sub Re.whitespace_pattern " "
                         (Py.drop_while Py.is_space s)) = false).
      { destruct (Py.startswith " " (Py.sub Re.whitespace_pattern " "
                   (Py.drop_while Py.is_space s))) eqn:E; [|reflexivity].
        specialize (C eq_refl).
        destruct (Py.drop_while Py.is_space s); [destruct C | congruence]. }
      repeat split.
      * apply all_chars_cons. split; [reflexivity | exact A].
      * cbn [Py.contains]. rewrite B, orb_false_r.
        change (Py.startswith "  " (String " " ?t))
          with (Ascii.eqb " " " " && Py.startswith " " t).
        cbn [Py.startswith]. rewrite Ascii.eqb_refl. cbn [andb].
        exact Hns.
    + rewrite (whitespace_step_other c s Esp).
      destruct (IH s) as [A [B C]]; [lia | exact Hs |].
      repeat split.
      * apply all_chars_cons. split; [now apply plain_lower_normal | exact A].
      * cbn [Py.contains]. rewrite B, orb_false_r.
        cbn [Py.startswith].
        destruct (Ascii.eqb_spec " " c) as [<-|N]; [discriminate Esp | reflexivity].
      * cbn [Py.startswith]. intros E.
        apply andb_true_iff in E. destruct E as [E _].
        apply Ascii.eqb_eq in E. subst c. discriminate Esp.
Qed.

(** *** Stripping *)

Lemma contains_drop_while (sub : string) (p : ascii -> bool) (s : string) :
  Py.contains sub s = false -> Py.contains sub (Py.drop_while p s) = false.
Proof.
  induction s as [|c s IH]; intros H; [exact H|].
  cbn [Py.drop_while]. destruct (p c); [|exact H].
  apply contains_tail in H. now apply IH.
Qed.

(** [rstrip] returns a prefix of its argument. *)
Lemma rstrip_prefix (s : string) : exists t, s = Py.rstrip s ++ t.
Proof.
  induction s as [|c s [t IH]]; [now exists ""|].
  cbn [Py.rstrip]. destruct (Py.rstrip s) as [|d r] eqn:E.
  - destruct (Py.is_space c).
    + now exists (String c s).
    + exists s. reflexivity.
  - exists t. cbn [append]. f_equal. exact IH.
Qed.

Lemma startswith_app_r (p a t : string) :
  Py.startswith p a = true -> Py.startswith p (a ++ t) = true.
Proof.
  revert a. induction p as [|c p IH]; intros a H; [reflexivity|].
  destruct a as [|d a]; [discriminate H|].
  cbn [append Py.startswith] in *.
  apply andb_true_iff in H. destruct H as [E H].
  rewrite E. cbn [andb]. now apply IH.
Qed.

Lemma contains_app_r (sub a t : string) :
  Py.contains sub a = true -> Py.contains sub (a ++ t) = true.
Proof.
  induction a as [|c a IH]; cbn [Py.contains append]; intros H.
  - rewrite orb_false_r in H. destruct sub; [|discriminate H].
    destruct t; reflexivity.
  - apply orb_true_iff in H. apply orb_true_iff. destruct H as [H|H].
    + left. now apply (startswith_app_r sub (String c a) t).
    + right. now apply IH.
Qed.

Lemma contains_rstrip (sub s : string) :
  Py.contains sub s = false -> Py.contains sub (Py.rstrip s) = false.
Proof.
  intros H. destruct (rstrip_prefix s) as [t E].
  destruct (Py.contains sub (Py.rstrip s)) eqn:C; [|reflexivity].
  apply (contains_app_r sub _ t) in C. rewrite <- E in C. congruence.
Qed.

Lemma all_chars_rstrip (p : ascii -> bool) (s : string) :
  all_chars p s = true -> all_chars p (Py.rstrip s) = true.
Proof.
  intros H. destruct (rstrip_prefix s) as [t E].
  rewrite E, all_chars_app in H. now apply andb_true_iff in H.
Qed.

Lemma rstrip_last (s : string) : last_is_space (Py.rstrip s) = false.
Proof.
  induction s as [|c s IH]; [reflexivity|].
  cbn [Py.rstrip]. destruct (Py.rstrip s) as [|d r] eqn:E.
  - destruct (Py.is_space c) eqn:Esp; [reflexivity|].
    cbn [last_is_space]. exact Esp.
  - exact IH.
Qed.

Lemma rstrip_head (s : string) :
  Py.startswith " " s = false -> Py.startswith " " (Py.rstrip s) = false.
Proof.
  destruct s as [|c s]; [reflexivity|]. intros H.
  cbn [Py.rstrip]. destruct (Py.rstrip s).
  - destruct (Py.is_space c); [reflexivity|].
    cbn [Py.startswith] in *. now rewrite andb_true_r in *.
  - cbn [Py.startswith] in *. now rewrite andb_true_r in *.
Qed.

Lemma drop_while_no_space_head (s : string) :
  Py.startswith " " (Py.drop_while Py.is_space s) = false.
Proof.
  pose proof (drop_while_head s) as H.
  destruct (Py.drop_while Py.is_space s) as [|c t]; [reflexivity|].
  cbn [Py.startswith]. rewrite andb_true_r.
  destruct (Ascii.eqb_spec " " c) as [<-|N]; [discriminate H | reflexivity].
Qed.

Lemma preprocess_pipeline_clean (s : string) :
  preprocess_pipeline s = retokenize (clean_text s).
Proof. reflexivity. Qed.

(** The shape of the text handed to the tokenizer. *)
Lemma clean_text_facts (s : string) :
  all_chars normal_char (clean_text s) = true
  /\ Py.startswith " " (clean_text s) = false
  /\ last_is_space (clean_text s) = false
  /\ Py.contains "  " (clean_text s) = false
  /\ Py.contains "@" (clean_text s) = false
  /\ Py.contains "/" (clean_text s) = false
  /\ Py.lower (clean_text s) = clean_text s.
Proof.
  unfold clean_text.
  set (t := Py.sub Re.special_chars_pattern " "
              (Py.sub Re.email_pattern ""
                 (Py.sub Re.url_pattern ""
                    (_expand_slang_and_idioms (Py.lower s))))).
  assert (Ht : all_chars plain_lower t = true).
  { unfold t. apply special_sub_plain.
    unfold Py.sub. apply all_chars_sub_from; [reflexivity|].
    apply all_chars_sub_from; [reflexivity|].
    apply expand_not_upper. apply lower_not_upper. }
  destruct (whitespace_sub_collapsed (String.length t) t (le_n _) Ht)
    as [A [B _]].
  set (w := Py.sub Re.whitespace_pattern " " t) in *.
  assert (Hchars : all_chars normal_char (Py.strip w) = true).
  { unfold Py.strip. apply all_chars_rstrip. now apply all_chars_drop_while. }
  assert (Hat : forall c : ascii, normal_char c = false ->
            Py.contains (String c "") (Py.strip w) = false).
  { intros c Hc. induction (Py.strip w) as [|d r IH]; [reflexivity|].
    apply all_chars_cons in Hchars. destruct Hchars as [Hd Hr].
    cbn [Py.contains Py.startswith]. rewrite (IH Hr), orb_false_r, andb_true_r.
    destruct (Ascii.eqb_spec c d) as [->|N]; [congruence | reflexivity]. }
  repeat split.
  - exact Hchars.
  - unfold Py.strip. apply rstrip_head. apply drop_while_no_space_head.
  - unfold Py.strip. apply rstrip_last.
  - unfold Py.strip. apply contains_rstrip. now apply contains_drop_while.
  - now apply Hat.
  - now apply Hat.
  - now apply lower_normal.
Qed.

(** X4.  Whatever the input, the text [preprocess_text] hands to the
    tokenizer consists of lower-case letters, digits, spaces and the
    punctuation . ! ? , ; : - ( ) only, has no space at either end and no
    two spaces in a row; in particular it has no "@", no "/" and no
    upper-case letter. *)
Theorem clean_text_shape (s : string) :
  preprocess_pipeline s = retokenize (clean_text s)
  /\ all_chars normal_char (clean_text s) = true
  /\ Py.startswith " " (clean_text s) = false
  /\ last_is_space (clean_text s) = false
  /\ Py.contains "  " (clean_text s) = false
  /\ Py.contains "@" (clean_text s) = false
  /\ Py.contains "/" (clean_text s) = false
  /\ Py.lower (clean_text s) = clean_text s.
Proof. split; [reflexivity | exact (clean_text_facts s)]. Qed.

(** ** The characters of a normalized text *)

Lemma startswith_chars (p : ascii -> bool) (sub s : string) :
  Py.startswith sub s = true -> all_chars p s = true ->
  all_chars p sub = true.
Proof.
  revert s. induction sub as [|c sub IH]; intros s H Hs; [reflexivity|].
  apply startswith_cons in H. destruct H as [s' [-> H]].
  apply all_chars_cons in Hs. destruct Hs as [Hc Hs].
  apply all_chars_cons. split; [exact Hc | now apply (IH s')].
Qed.

(** A string found in a text is made of characters of the text. *)
Lemma contains_chars (p : ascii -> bool) (sub s : string) :
  Py.contains sub s = true -> all_chars p s = true ->
  all_chars p sub = true.
Proof.
  induction s as [|c s IH]; cbn [Py.contains]; intros H Hs.
  - rewrite orb_false_r in H. now apply (startswith_chars p sub "").
  - apply orb_true_iff in H. destruct H as [H|H].
    + now apply (startswith_chars p sub (String c s)).
    + apply all_chars_cons in Hs. now apply IH.
Qed.

Lemma all_chars_join (p : ascii -> bool) (sep : string) (parts : list string) :
  all_chars p sep = true ->
  Forall (fun w => all_chars p w = true) parts ->
  all_chars p (Py.join sep parts) = true.
Proof.
  intros Hsep. induction 1 as [|w ws Hw Hws IH]; [reflexivity|].
  cbn [Py.join]. destruct ws as [|w' ws']; [exact Hw|].
  now rewrite !all_chars_app, Hw, Hsep, IH.
Qed.

Lemma split_from_chars (p : ascii -> bool) (s : string) :
  forall cur, all_chars p cur = true -> all_chars p s = true ->
    Forall (fun w => all_chars p w = true) (Py.split_from cur s).
Proof.
  induction s as [|c s IH]; intros cur Hcur Hs; cbn [Py.split_from].
  - destruct cur; [constructor | constructor; [exact Hcur | constructor]].
  - apply all_chars_cons in Hs. destruct Hs as [Hc Hs].
    destruct (Py.is_space c).
    + destruct cur.
      * now apply IH.
      * constructor; [exact Hcur | now apply IH].
    + apply IH; [|exact Hs].
      rewrite all_chars_app, Hcur. cbn [all_chars]. now rewrite Hc.
Qed.

Lemma retokenize_chars (t : string) :
  (forall t, all_chars normal_char t = true ->
     Forall (fun w => all_chars normal_char w = true) (word_tokenize t)) ->
  (forall w, all_chars normal_char w = true ->
     all_chars normal_char (lemmatize w) = true) ->
  all_chars normal_char t = true ->
  all_chars normal_char (retokenize t) = true.
Proof.
  intros Htok Hlem Ht. unfold retokenize.
  apply all_chars_join; [reflexivity|].
  apply Forall_map. apply Forall_forall. intros w Hin.
  apply filter_In in Hin. destruct Hin as [Hin _].
  apply Hlem. specialize (Htok t Ht). rewrite Forall_forall in Htok.
  now apply Htok.
Qed.

(** X5.  If the tokenizer and the lemmatizer only return characters of the
    kind they are given, then every string [preprocess_text] returns, from
    the pipeline or from a reachable cache, is lower-case and made of
    letters, digits, spaces and kept punctuation: it contains no "@" and no
    "https://" (what [test_preprocess_text] checks on one input). *)
Theorem processed_text_chars (cache : Dict.t) (text : py_value) :
  (forall t, all_chars normal_char t = true ->
     Forall (fun w => all_chars normal_char w = true) (word_tokenize t)) ->
  (forall w, all_chars normal_char w = true ->
     all_chars normal_char (lemmatize w) = true) ->
  reachable cache ->
  let processed := fst (preprocess_text cache text) in
  all_chars normal_char processed = true
  /\ Py.contains "@" processed = false
  /\ Py.contains "https://" processed = false
  /\ Py.lower processed = processed.
Proof.
  intros Htok Hlem Hr processed.
  assert (Hpipe : forall s, all_chars normal_char (preprocess_pipeline s) = true).
  { intros s. rewrite preprocess_pipeline_clean.
    apply retokenize_chars; auto. apply clean_text_facts. }
  assert (Hchars : all_chars normal_char processed = true).
  { subst processed.
    destruct (py_value_cases text) as [D | [s [-> Hs]]].
    - now rewrite preprocess_text_degenerate.
    - destruct (Dict.get (Py.slice_to 100 s) cache) as [v|] eqn:G.
      + rewrite (preprocess_text_hit _ _ _ Hs G). cbn [fst].
        destruct (reachable_sound cache Hr _ _ (dict_get_In _ _ _ G))
          as [s' [_ [_ ->]]].
        apply Hpipe.
      + rewrite (preprocess_text_miss _ _ Hs G). apply Hpipe. }
  repeat split.
  - exact Hchars.
  - destruct (Py.contains "@" processed) eqn:E; [|reflexivity].
    pose proof (contains_chars normal_char _ _ E Hchars) as F.
    discriminate F.
  - destruct (Py.contains "https://" processed) eqn:E; [|reflexivity].
    pose proof (contains_chars normal_char _ _ E Hchars) as F.
    discriminate F.
  - now apply lower_normal.
Qed.

(** ** What the cache holds *)

Lemma keys_app (d d' : Dict.t) :
  Dict.keys (d ++ d')%list = (Dict.keys d ++ Dict.keys d')%list.
Proof. unfold Dict.keys. apply map_app. Qed.

Lemma keys_tl (d : Dict.t) : Dict.keys (List.tl d) = List.tl (Dict.keys d).
Proof. destruct d; reflexivity. Qed.

Lemma NoDup_tl {A : Type} (l : list A) : NoDup l -> NoDup (List.tl l).
Proof. destruct l; [auto|]. intros H. now inversion H. Qed.

Lemma In_tl {A : Type} (x : A) (l : list A) : In x (List.tl l) -> In x l.
Proof. destruct l; [auto|]. intros H. now right. Qed.

Lemma NoDup_snoc {A : Type} (l : list A) (x : A) :
  NoDup l -> ~ In x l -> NoDup (l ++ [x])%list.
Proof.
  intros Hl Hx. apply NoDup_app; [exact Hl | repeat constructor; auto |].
  intros y Hy [<-|[]]. contradiction.
Qed.

Lemma reachable_keys_nodup (cache : Dict.t) :
  reachable cache -> NoDup (Dict.keys cache).
Proof.
  induction 1 as [|cache text _ IH]; [constructor|].
  destruct (preprocess_text_cache_shape cache text)
    as [-> | [s [_ [_ [G ->]]]]]; [exact IH|].
  apply dict_get_not_key in G.
  rewrite keys_app. cbn [Dict.keys map fst].
  destruct (_max_cache_size <=? List.length cache)%nat.
  - rewrite keys_tl. apply NoDup_snoc; [now apply NoDup_tl|].
    intros Hin. apply G. now apply In_tl.
  - now apply NoDup_snoc.
Qed.

(** X6.  In every cache state the analyzer can reach the keys are pairwise
    distinct; each key is a non-empty string of at most 100 characters, the
    first 100 characters of a text whose normalization is the stored
    value. *)
Theorem cache_entries_invariant (cache : Dict.t) (k v : string) :
  reachable cache ->
  NoDup (Dict.keys cache)
  /\ (In (k, v) cache ->
      k <> "" /\ String.length k <= 100
      /\ Dict.get k cache = Some v
      /\ exists s, s <> "" /\ k = Py.slice_to 100 s
                   /\ v = preprocess_pipeline s).
Proof.
  intros Hr. pose proof (reachable_keys_nodup cache Hr) as Hnd.
  split; [exact Hnd|]. intros Hin.
  destruct (reachable_sound cache Hr k v Hin) as [s [Hs [Hk Hv]]].
  subst k. repeat split.
  - now apply slice_to_nonempty.
  - rewrite slice_to_length. lia.
  - clear Hr Hv. induction cache as [|[k' v'] cache IH]; [destruct Hin|].
    cbn [Dict.get]. cbn [Dict.keys map fst] in Hnd.
    inversion Hnd as [|? ? Hnotin Hnd']; subst.
    destruct Hin as [E|Hin].
    + injection E as -> ->. now rewrite String.eqb_refl.
    + destruct (String.eqb_spec k' (Py.slice_to 100 s)) as [->|N].
      * exfalso. apply Hnotin.
        change (Py.slice_to 100 s) with (fst (Py.slice_to 100 s, v)).
        now apply in_map.
      * now apply IH.
  - exists s. auto.
Qed.

(** ** How long an entry stays in the cache *)

Lemma dict_get_middle (k v : string) (pre post : Dict.t) :
  ~ In k (Dict.keys pre) ->
  Dict.get k (pre ++ (k, v) :: post)%list = Some v.
Proof.
  induction pre as [|[k' v'] pre IH]; intros H; cbn [app Dict.get].
  - now rewrite String.eqb_refl.
  - cbn [Dict.keys map fst In] in H.
    destruct (String.eqb_spec k' k) as [E|N].
    + exfalso. apply H. now left.
    + apply IH. intros Hin. apply H. now right.
Qed.

Lemma preprocess_all_cons (cache : Dict.t) (text : py_value)
    (texts : list py_value) :
  preprocess_all cache (text :: texts)
  = preprocess_all (snd (preprocess_text cache text)) texts.
Proof. reflexivity. Qed.

Lemma analyze_all_cache (texts : list py_value) :
  forall cache, snd (analyze_all cache texts) = preprocess_all cache texts.
Proof.
  induction texts as [|t ts IH]; intros cache; [reflexivity|].
  cbn [analyze_all]. rewrite preprocess_all_cons, <- analyze_sentiment_cache.
  destruct (analyze_sentiment cache t) as [r c1]. cbn [snd].
  rewrite <- IH. now destruct (analyze_all c1 ts).
Qed.

(** One call moves an entry that has at most [j] younger entries to a place
    with at most [j + 1] younger entries, as long as [j] is below 999. *)
Lemma entry_survives_step (k v : string) (j : nat) (cache : Dict.t)
    (text : py_value) :
  (exists pre post, cache = (pre ++ (k, v) :: post)%list
     /\ ~ In k (Dict.keys pre) /\ List.length post <= j) ->
  List.length cache <= _max_cache_size ->
  j < 999 ->
  exists pre post,
    snd (preprocess_text cache text) = (pre ++ (k, v) :: post)%list
    /\ ~ In k (Dict.keys pre) /\ List.length post <= S j.
Proof.
  intros (pre & post & E & Hpre & Hpost) Hlen Hj.
  destruct (preprocess_text_cache_shape cache text)
    as [-> | [s [_ [_ [_ ->]]]]].
  - exists pre, post. repeat split; auto.
  - set (e := (Py.slice_to 100 s, preprocess_pipeline s)).
    destruct (Nat.leb_spec _max_cache_size (List.length cache)) as [Hfull|_].
    + destruct pre as [|x pre].
      * exfalso. subst cache. cbn [app List.length] in Hfull.
        unfold _max_cache_size in Hfull. lia.
      * exists pre, (post ++ [e])%list. subst cache.
        cbn [app List.tl]. rewrite <- app_assoc. cbn [app].
        repeat split.
        -- intros Hin. apply Hpre. cbn [Dict.keys map In]. right. exact Hin.
        -- rewrite length_app. cbn [List.length]. lia.
    + exists pre, (post ++ [e])%list. subst cache.
      rewrite <- app_assoc. cbn [app].
      repeat split; auto.
      rewrite length_app. cbn [List.length]. lia.
Qed.

Lemma entry_survives (k v : string) (texts : list py_value) :
  forall (j : nat) (cache : Dict.t),
    (exists pre post, cache = (pre ++ (k, v) :: post)%list
       /\ ~ In k (Dict.keys pre) /\ List.length post <= j) ->
    List.length cache <= _max_cache_size ->
    j + List.length texts <= 999 ->
    Dict.get k (preprocess_all cache texts) = Some v.
Proof.
  induction texts as [|t ts IH]; intros j cache Hinv Hlen Hj.
  - destruct Hinv as (pre & post & -> & Hpre & _).
    now apply dict_get_middle.
  - cbn [List.length] in Hj. rewrite preprocess_all_cons.
    apply (IH (S j)).
    + apply entry_survives_step; auto. lia.
    + now apply preprocess_text_bound.
    + lia.
Qed.

(** X7.  An entry stored on a miss is still in the cache after any 999
    further calls, whatever their texts; so re-invoking [analyze_sentiment]
    with the same text within that window returns the same result. *)
Theorem entry_survives_999_calls (cache : Dict.t) (s : string)
    (texts : list py_value) :
  reachable cache ->
  s <> "" ->
  Dict.mem (Py.slice_to 100 s) cache = false ->
  List.length texts <= 999 ->
  let later :=
    snd (analyze_all (snd (analyze_sentiment cache (PyStr s))) texts) in
  Dict.get (Py.slice_to 100 s) later = Some (preprocess_pipeline s)
  /\ fst (analyze_sentiment later (PyStr s))
     = fst (analyze_sentiment cache (PyStr s)).
Proof.
  intros Hr Hs Hmem Hn later.
  assert (G : Dict.get (Py.slice_to 100 s) cache = None).
  { unfold Dict.mem in Hmem.
    destruct (Dict.get (Py.slice_to 100 s) cache); [discriminate | reflexivity]. }
  assert (Hget : Dict.get (Py.slice_to 100 s) later
                 = Some (preprocess_pipeline s)).
  { subst later. rewrite analyze_all_cache, analyze_sentiment_cache.
    apply (entry_survives _ _ texts 0).
    - destruct (preprocess_text_cache_shape cache (PyStr s))
        as [Same | [s0 [E [_ [_ Shape]]]]].
      + pose proof (preprocess_text_stores cache s Hs) as Hst.
        rewrite Same, G in Hst. discriminate Hst.
      + injection E as <-. rewrite Shape.
        exists (if (_max_cache_size <=? List.length cache)%nat
                then List.tl cache else cache), [].
        repeat split; [|cbn [List.length]; lia].
        apply dict_get_not_key.
        destruct (_max_cache_size <=? List.length cache)%nat;
          [now apply dict_get_tl_None | exact G].
    - apply preprocess_text_bound. now apply reachable_bound.
    - cbn [plus]. exact Hn. }
  split; [exact Hget|].
  apply analyze_sentiment_same_processed; [exact Hs|].
  rewrite (preprocess_text_hit _ _ _ Hs Hget).
  now rewrite (preprocess_text_miss _ _ Hs G).
Qed.

(** ** The fields of a result *)

(** The five vectors the chain can return. *)
Lemma enhanced_sentiment_cases (s p : string) (e : SentimentResult) :
  _get_enhanced_sentiment s p = Some e ->
  e = negative_dict s p \/ e = positive_dict s p \/ e = mixed_dict s p
  \/ e = result_dict 0.7 0.2 0.1 (-0.6) negative 0.6 (PyStr s) p
  \/ e = result_dict 0.1 0.8 0.1 0 neutral 0.5 (PyStr s) p.
Proof.
  unfold _get_enhanced_sentiment. intros H.
  repeat match type of H with
         | context [if ?b then _ else _] =>
             destruct b; [try (injection H as <-; auto 10)|]
         end;
    try (injection H as <-; auto 10); try discriminate H.
Qed.

(** Rounding to four decimals does not cross a multiple of 0.0001. *)
Lemma py_round_4_ge (z : Z) (x : Q) :
  (inject_Z z * (1 # 10000) <= x)%Q ->
  (inject_Z z * (1 # 10000) <= py_round x 4)%Q.
Proof.
  intros H.
  change (py_round x 4)
    with (Qmake (round_half_even (x * inject_Z 10000)) 10000).
  destruct (round_half_even_bounds (x * inject_Z 10000)) as [_ Bhi].
  rewrite (Qmake_scale (round_half_even (x * inject_Z 10000)) 10000).
  change (inject_Z 10000) with (10000 # 1)%Q in *.
  assert (Hz : (z <= round_half_even (x * (10000 # 1)))%Z).
  { assert (Hlt : (inject_Z z
                   < inject_Z (round_half_even (x * (10000 # 1)) + 1))%Q)
      by (rewrite inject_Z_plus; change (inject_Z 1) with 1%Q; lra).
    rewrite <- Zlt_Qlt in Hlt. lia. }
  rewrite Zle_Qle in Hz. lra.
Qed.

Lemma py_round_4_le (z : Z) (x : Q) :
  (x <= inject_Z z * (1 # 10000))%Q ->
  (py_round x 4 <= inject_Z z * (1 # 10000))%Q.
Proof.
  intros H.
  change (py_round x 4)
    with (Qmake (round_half_even (x * inject_Z 10000)) 10000).
  destruct (round_half_even_bounds (x * inject_Z 10000)) as [Blo _].
  rewrite (Qmake_scale (round_half_even (x * inject_Z 10000)) 10000).
  change (inject_Z 10000) with (10000 # 1)%Q in *.
  assert (Hz : (round_half_even (x * (10000 # 1)) <= z)%Z).
  { assert (Hlt : (inject_Z (round_half_even (x * (10000 # 1)))
                   < inject_Z (z + 1))%Q)
      by (rewrite inject_Z_plus; change (inject_Z 1) with 1%Q; lra).
    rewrite <- Zlt_Qlt in Hlt. lia. }
  rewrite Zle_Qle in Hz. lra.
Qed.

(** [a <= x <= b] survives rounding when [a] and [b] have four decimals. *)
Lemma py_round_4_between (a b : Z) (x : Q) :
  (inject_Z a * (1 # 10000) <= x)%Q -> (x <= inject_Z b * (1 # 10000))%Q ->
  (inject_Z a * (1 # 10000) <= py_round x 4)%Q
  /\ (py_round x 4 <= inject_Z b * (1 # 10000))%Q.
Proof. intros Ha Hb. split; [now apply py_round_4_ge | now apply py_round_4_le]. Qed.

(** The three shapes of a result. *)
Lemma analyze_sentiment_cases (cache : Dict.t) (text : py_value) :
  let r := fst (analyze_sentiment cache text) in
  (r = mkResult 0 0 0 0 neutral 0 (Some text) (Some "")
   \/ r = mkResult 0 0 0 0 neutral 0 None None)
  \/ (exists s p, text = PyStr s /\ p <> ""
        /\ p = fst (preprocess_text cache text)
        /\ _get_enhanced_sentiment s p = Some r)
  \/ (exists s p, text = PyStr s /\ p <> ""
        /\ p = fst (preprocess_text cache text)
        /\ _get_enhanced_sentiment s p = None
        /\ r = result_dict (py_round (score_neg (polarity_scores p)) 4)
                 (py_round (score_neu (polarity_scores p)) 4)
                 (py_round (score_pos (polarity_scores p)) 4)
                 (py_round (score_compound (polarity_scores p)) 4)
                 (label_of_compound (score_compound (polarity_scores p)))
                 (py_round (Qabs (score_compound (polarity_scores p))) 4)
                 (PyStr s) p).
Proof.
  intros r. subst r.
  destruct (py_value_cases text) as [D | [s [-> Hs]]].
  - left. left. now rewrite analyze_sentiment_degenerate.
  - destruct (String.eqb_spec (fst (preprocess_text cache (PyStr s))) "")
      as [Hp|Hp].
    + left. right. now apply analyze_sentiment_empty_processed.
    + right.
      destruct (_get_enhanced_sentiment s
                  (fst (preprocess_text cache (PyStr s)))) as [e|] eqn:He.
      * left. exists s, (fst (preprocess_text cache (PyStr s))).
        rewrite (analyze_sentiment_rule cache s e Hs Hp He). auto.
      * right. exists s, (fst (preprocess_text cache (PyStr s))).
        repeat split; auto.
        exact (analyze_sentiment_scorer cache s Hs Hp He).
Qed.

(** X8.  In every result the label agrees with the returned compound: a
    positive label comes with a compound of at least 0.05, a negative label
    with one of at most -0.05, and a neutral or mixed label with one between
    -0.05 and 0.05; the confidence is never negative. *)
Theorem label_agrees_with_compound (cache : Dict.t) (text : py_value) :
  let r := fst (analyze_sentiment cache text) in
  (sentiment_label r = positive -> (0.05 <= compound r)%Q)
  /\ (sentiment_label r = negative -> (compound r <= -0.05)%Q)
  /\ (sentiment_label r = neutral \/ sentiment_label r = mixed ->
      (-0.05 <= compound r)%Q /\ (compound r <= 0.05)%Q)
  /\ (0 <= confidence r)%Q.
Proof.
  intros r.
  destruct (analyze_sentiment_cases cache text)
    as [[E|E] | [(s & p & _ & _ & _ & He) | (s & p & _ & _ & _ & _ & E)]];
    fold r in E || fold r in He.
  - rewrite E. cbn. repeat split; try discriminate; intros; lra.
  - rewrite E. cbn. repeat split; try discriminate; intros; lra.
  - destruct (enhanced_sentiment_cases s p r He)
      as [-> | [-> | [-> | [-> | ->]]]];
      cbn; repeat split; try discriminate; intros; try lra;
      match goal with H : _ \/ _ |- _ => destruct H; discriminate end.
  - rewrite E. cbn [result_dict sentiment_label compound confidence].
    set (c := score_compound (polarity_scores p)).
    destruct (label_of_compound_spec c) as [H1 [H2 [H3 H4]]].
    assert (Hge : forall z : Z, (inject_Z z * (1 # 10000) <= c)%Q ->
              (inject_Z z * (1 # 10000) <= py_round c 4)%Q)
      by (intros z; apply py_round_4_ge).
    assert (Hle : forall z : Z, (c <= inject_Z z * (1 # 10000))%Q ->
              (py_round c 4 <= inject_Z z * (1 # 10000))%Q)
      by (intros z; apply py_round_4_le).
    pose proof (Hge 500%Z) as G500. pose proof (Hge (-500)%Z) as Gm500.
    pose proof (Hle 500%Z) as L500. pose proof (Hle (-500)%Z) as Lm500.
    change (inject_Z 500) with (500 # 1)%Q in *.
    change (inject_Z (-500)) with (-500 # 1)%Q in *.
    repeat split.
    + intros L. apply H1 in L.
      assert (G : ((500 # 1) * (1 # 10000) <= py_round c 4)%Q)
        by (apply G500; lra).
      lra.
    + intros L. apply H2 in L.
      assert (G : (py_round c 4 <= (-500 # 1) * (1 # 10000))%Q)
        by (apply Lm500; lra).
      lra.
    + destruct H as [L|L]; [apply H3 in L | contradiction].
      assert (G : ((-500 # 1) * (1 # 10000) <= py_round c 4)%Q)
        by (apply Gm500; lra).
      lra.
    + destruct H as [L|L]; [apply H3 in L | contradiction].
      assert (G : (py_round (c) 4 <= (500 # 1) * (1 # 10000))%Q)
        by (apply L500; lra).
      lra.
    + pose proof (py_round_4_ge 0 (Qabs c)) as G0.
      change (inject_Z 0) with 0%Q in G0.
      assert (G : (0 * (1 # 10000) <= py_round (Qabs c) 4)%Q).
      { apply G0. pose proof (Qabs_nonneg c). lra. }
      lra.
Qed.

(** X9.  If the scorer returns fractions between 0 and 1 and a compound
    between -1 and 1, then so does [analyze_sentiment], and its confidence
    lies between 0 and 1: rounding to four decimals keeps the scorer's values
    in range and all fixed vectors are in range. *)
Theorem result_fields_in_range (cache : Dict.t) (text : py_value) :
  (forall t,
     (0 <= score_neg (polarity_scores t) <= 1)%Q
     /\ (0 <= score_neu (polarity_scores t) <= 1)%Q
     /\ (0 <= score_pos (polarity_scores t) <= 1)%Q
     /\ (-1 <= score_compound (polarity_scores t) <= 1)%Q) ->
  let r := fst (analyze_sentiment cache text) in
  (0 <= neg r <= 1)%Q /\ (0 <= neu r <= 1)%Q /\ (0 <= pos r <= 1)%Q
  /\ (-1 <= compound r <= 1)%Q /\ (0 <= confidence r <= 1)%Q.
Proof.
  intros Hsc r.
  destruct (analyze_sentiment_cases cache text)
    as [[E|E] | [(s & p & _ & _ & _ & He) | (s & p & _ & _ & _ & _ & E)]];
    fold r in E || fold r in He.
  - rewrite E. cbn. repeat split; lra.
  - rewrite E. cbn. repeat split; lra.
  - destruct (enhanced_sentiment_cases s p r He)
      as [-> | [-> | [-> | [-> | ->]]]]; cbn; repeat split; lra.
  - rewrite E. cbn [result_dict neg neu pos compound confidence].
    destruct (Hsc p) as ([N0 N1] & [U0 U1] & [P0 P1] & [C0 C1]).
    assert (R : forall x : Q, (0 <= x)%Q -> (x <= 1)%Q ->
              (0 <= py_round x 4 <= 1)%Q).
    { intros x X0 X1.
      destruct (py_round_4_between 0 10000 x) as [A B].
      - change (inject_Z 0) with 0%Q. lra.
      - change (inject_Z 10000) with (10000 # 1)%Q. lra.
      - change (inject_Z 0) with 0%Q in A.
        change (inject_Z 10000) with (10000 # 1)%Q in B. split; lra. }
    assert (RC : (-1 <= py_round (score_compound (polarity_scores p)) 4 <= 1)%Q).
    { destruct (py_round_4_between (-10000) 10000
                  (score_compound (polarity_scores p))) as [A B].
      - change (inject_Z (-10000)) with (-10000 # 1)%Q. lra.
      - change (inject_Z 10000) with (10000 # 1)%Q. lra.
      - change (inject_Z (-10000)) with (-10000 # 1)%Q in A.
        change (inject_Z 10000) with (10000 # 1)%Q in B. split; lra. }
    assert (HA : (0 <= Qabs (score_compound (polarity_scores p)))%Q
                 /\ (Qabs (score_compound (polarity_scores p)) <= 1)%Q).
    { split; [apply Qabs_nonneg|]. apply Qabs_Qle_condition. split; lra. }
    destruct HA as [A0 A1].
    destruct (R _ N0 N1) as [? ?], (R _ U0 U1) as [? ?],
      (R _ P0 P1) as [? ?], (R _ A0 A1) as [? ?], RC as [? ?].
    repeat split; assumption.
Qed.

(** X10.  A result either carries both text keys or neither.  When it
    carries them, [original_text] is the input as given and
    [processed_text] is what [preprocess_text] returned for it; they are
    absent exactly for a non-empty string whose normalization is empty. *)
Theorem result_echoes_texts (cache : Dict.t) (text : py_value) :
  let r := fst (analyze_sentiment cache text) in
  let p := fst (preprocess_text cache text) in
  (original_text r = None <-> processed_text r = None)
  /\ (forall o, original_text r = Some o -> o = text)
  /\ (forall q, processed_text r = Some q -> q = p)
  /\ (original_text r = None <->
      exists s, text = PyStr s /\ s <> "" /\ p = "").
Proof.
  intros r p.
  destruct (py_value_cases text) as [D | [s [-> Hs]]].
  - assert (E : r = mkResult 0 0 0 0 neutral 0 (Some text) (Some ""))
      by (subst r; now rewrite analyze_sentiment_degenerate).
    assert (Ep : p = "") by (subst p; now rewrite preprocess_text_degenerate).
    rewrite E, Ep. cbn [original_text processed_text].
    repeat split; try discriminate; try congruence.
    intros (s & -> & Hs & _). apply string_eqb_empty in Hs.
    destruct D as [D|D]; cbn in D; [rewrite Hs in D|]; discriminate D.
  - destruct (String.eqb_spec p "") as [Hp|Hp].
    + assert (E : r = mkResult 0 0 0 0 neutral 0 None None)
        by (subst r; now apply analyze_sentiment_empty_processed).
      rewrite E. cbn [original_text processed_text].
      repeat split; try discriminate; auto.
      intros _. now exists s.
    + assert (E : original_text r = Some (PyStr s)
                  /\ processed_text r = Some p).
      { destruct (_get_enhanced_sentiment s p) as [e|] eqn:He.
        - assert (Er : r = e) by (subst r; now apply analyze_sentiment_rule).
          rewrite Er.
          destruct (enhanced_sentiment_cases s p e He)
            as [-> | [-> | [-> | [-> | ->]]]]; split; reflexivity.
        - subst r. rewrite (analyze_sentiment_scorer cache s Hs Hp He).
          split; reflexivity. }
      destruct E as [Eo Ep]. rewrite Eo, Ep.
      repeat split; try discriminate; try congruence.
      intros (s' & _ & _ & Hp'). contradiction.
Qed.

(** ** The routes *)

Lemma analyze_api_object (cache : Dict.t) (fields : list (string * json)) :
  analyze_sentiment_api cache (JObject fields) =
    match lookup "text" fields with
    | Some (JString text) =>
        ((200, BodyResult (fst (analyze_sentiment cache (PyStr text)))),
         snd (analyze_sentiment cache (PyStr text)))
    | Some _ => ((400, BodyError "Text must be a string."), cache)
    | None =>
        ((400, BodyError "Invalid request. Please provide text in JSON format."),
         cache)
    end.
Proof.
  unfold analyze_sentiment_api. destruct fields as [|f fields]; [reflexivity|].
  cbn [json_truthy negb json_contains json_subscript].
  destruct (lookup "text" (f :: fields)) as [[| b | q | text | items | fs]|];
    try reflexivity.
  now destruct (analyze_sentiment cache (PyStr text)).
Qed.

(** X11.  [/api/analyze] answers 200 exactly when the body is an object
    whose "text" is a string (the empty string included), and then returns
    the analyzer's result and leaves the analyzer's cache as that call left
    it.  It answers 500 exactly when the body is [true], a non-zero number,
    a string containing "text" or an array with an element "text": the
    membership test or the subscript raises.  Every other body gets 400.
    Unless it answers 200 the cache is untouched. *)
Theorem analyze_api_status (cache : Dict.t) (data : json) :
  let out := analyze_sentiment_api cache data in
  let status := fst (fst out) in
  (status = 200 \/ status = 400 \/ status = 500)
  /\ (status = 200 <->
      exists fields text,
        data = JObject fields /\ lookup "text" fields = Some (JString text))
  /\ (forall fields text,
        data = JObject fields -> lookup "text" fields = Some (JString text) ->
        out = ((200, BodyResult (fst (analyze_sentiment cache (PyStr text)))),
               snd (analyze_sentiment cache (PyStr text))))
  /\ (status = 500 <->
      data = JBool true
      \/ (exists q, data = JNumber q /\ ~ (q == 0)%Q)
      \/ (exists t, data = JString t /\ Py.contains "text" t = true)
      \/ (exists items, data = JArray items
            /\ existsb (json_is_string "text") items = true))
  /\ (status <> 200 -> snd out = cache).
Proof.
  intros out status. subst status out.
  destruct data as [| b | q | t | items | fields].
  - cbn. repeat split; auto; try discriminate;
      try (intros (? & ? & H & _); discriminate H);
      try (intros ? ? H; discriminate H).
    intros [H | [(? & H & _) | [(? & H & _) | (? & H & _)]]]; discriminate H.
  - destruct b; cbn; repeat split; auto; try discriminate;
      try (intros (? & ? & H & _); discriminate H);
      try (intros ? ? H; discriminate H).
    intros [H | [(? & H & _) | [(? & H & _) | (? & H & _)]]]; discriminate H.
  - unfold analyze_sentiment_api. cbn [json_truthy].
    destruct (Qeq_bool q 0) eqn:Eq; cbn; repeat split; auto; try discriminate;
      try (intros (? & ? & H & _); discriminate H);
      try (intros ? ? H; discriminate H).
    + intros [H | [(q' & H & Hq) | [(? & H & _) | (? & H & _)]]];
        try discriminate H.
      injection H as <-. apply Qeq_bool_iff in Eq. contradiction.
    + intros _. right. left. exists q. split; [reflexivity|].
      now apply Qeq_bool_neq.
  - unfold analyze_sentiment_api. cbn [json_truthy json_contains json_subscript].
    destruct (String.eqb_spec t "") as [->|Nt]; cbn [negb].
    + cbn. repeat split; auto; try discriminate;
        try (intros (? & ? & H & _); discriminate H);
        try (intros ? ? H; discriminate H).
      intros [H | [(? & H & _) | [(t' & H & Ht) | (? & H & _)]]];
        try discriminate H.
      injection H as <-. discriminate Ht.
    + destruct (Py.contains "text" t) eqn:Ec; cbn;
        repeat split; auto; try discriminate;
        try (intros (? & ? & H & _); discriminate H);
        try (intros ? ? H; discriminate H).
      * intros _. right. right. left. now exists t.
      * intros [H | [(? & H & _) | [(t' & H & Ht) | (? & H & _)]]];
          try discriminate H.
        injection H as <-. congruence.
  - unfold analyze_sentiment_api. cbn [json_truthy json_contains json_subscript].
    destruct items as [|item items]; cbn [negb].
    + cbn. repeat split; auto; try discriminate;
        try (intros (? & ? & H & _); discriminate H);
        try (intros ? ? H; discriminate H).
      intros [H | [(? & H & _) | [(? & H & _) | (its & H & Hi)]]];
        try discriminate H.
      injection H as <-. discriminate Hi.
    + destruct (existsb (json_is_string "text") (item :: items)) eqn:Ec; cbn;
        repeat split; auto; try discriminate;
        try (intros (? & ? & H & _); discriminate H);
        try (intros ? ? H; discriminate H).
      * intros _. right. right. right. now exists (item :: items).
      * intros [H | [(? & H & _) | [(? & H & _) | (its & H & Hi)]]];
          try discriminate H.
        injection H as <-. congruence.
  - rewrite analyze_api_object.
    destruct (lookup "text" fields) as [[| b | q | text | items | fs]|] eqn:L;
      cbn [fst snd]; repeat split; auto; try discriminate;
      try (intros (fs' & t' & H & L'); injection H as <-; congruence);
      try (intros fs' t' H L'; injection H as <-; congruence);
      try (intros [H | [(? & H & _) | [(? & H & _) | (? & H & _)]]];
           discriminate H);
      try (intros H; now contradiction H).
    intros _. now exists fields, text.
Qed.

Lemma batch_loop_analyze_all (texts : list json) :
  forall (cache : Dict.t) (results : list SentimentResult),
    batch_loop cache results texts =
      ((results ++ fst (analyze_all cache (strings_of texts)))%list,
       snd (analyze_all cache (strings_of texts))).
Proof.
  induction texts as [|t ts IH]; intros cache results.
  - cbn. now rewrite app_nil_r.
  - destruct t as [| b | q | text | items | fields];
      cbn [batch_loop strings_of]; try apply IH.
    cbn [analyze_all].
    destruct (analyze_sentiment cache (PyStr text)) as [r c1].
    rewrite IH. destruct (analyze_all c1 (strings_of ts)) as [rs c2].
    cbn [fst snd]. now rewrite <- app_assoc.
Qed.

Lemma analyze_all_length (texts : list py_value) :
  forall cache, List.length (fst (analyze_all cache texts)) = List.length texts.
Proof.
  induction texts as [|t ts IH]; intros cache; [reflexivity|].
  cbn [analyze_all]. destruct (analyze_sentiment cache t) as [r c1].
  specialize (IH c1). destruct (analyze_all c1 ts) as [rs c2].
  cbn [fst List.length] in *. now rewrite IH.
Qed.

Lemma strings_of_length (texts : list json) :
  List.length (strings_of texts) <= List.length texts.
Proof.
  induction texts as [|t ts IH]; [auto|].
  destruct t; cbn [strings_of List.length]; lia.
Qed.

Lemma batch_api_object (timestamp : string) (cache : Dict.t)
    (fields : list (string * json)) :
  batch_analyze_sentiment timestamp cache (JObject fields) =
    match lookup "texts" fields with
    | Some (JArray (item :: items)) =>
        ((200,
          BodyBatch (fst (analyze_all cache (strings_of (item :: items))))
            (List.length (strings_of (item :: items))) timestamp),
         snd (analyze_all cache (strings_of (item :: items))))
    | Some _ => ((400, BodyError "Texts must be a non-empty array."), cache)
    | None =>
        ((400,
          BodyError
            "Invalid request. Please provide texts array in JSON format."),
         cache)
    end.
Proof.
  unfold batch_analyze_sentiment.
  destruct fields as [|f fields]; [reflexivity|].
  cbn [json_truthy negb json_contains json_subscript].
  destruct (lookup "texts" (f :: fields))
    as [[| b | q | text | [|item items] | fs]|]; try reflexivity.
  rewrite batch_loop_analyze_all. cbv beta iota. cbn [app].
  now rewrite analyze_all_length.
Qed.

(** X12.  [/api/batch-analyze] answers 200 exactly when the body is an
    object whose "texts" is a non-empty array.  Its results are those of
    analyzing the strings of the array one after the other, in order, on
    the shared analyzer; elements that are not strings are skipped without
    an error, [total_analyzed] counts the strings, and it can be 0.  Unless
    it answers 200 the cache is untouched. *)
Theorem batch_api_outcome (timestamp : string) (cache : Dict.t) (data : json) :
  let out := batch_analyze_sentiment timestamp cache data in
  (fst (fst out) = 200 <->
   exists fields item items,
     data = JObject fields
     /\ lookup "texts" fields = Some (JArray (item :: items)))
  /\ (forall fields texts,
        data = JObject fields ->
        lookup "texts" fields = Some (JArray texts) ->
        texts <> [] ->
        out = ((200,
                BodyBatch (fst (analyze_all cache (strings_of texts)))
                  (List.length (strings_of texts)) timestamp),
               snd (analyze_all cache (strings_of texts)))
        /\ List.length (fst (analyze_all cache (strings_of texts)))
           = List.length (strings_of texts)
        /\ List.length (strings_of texts) <= List.length texts)
  /\ (fst (fst out) <> 200 -> snd out = cache).
Proof.
  intros out. subst out.
  destruct data as [| b | q | t | items | fields].
  - cbn. repeat split; try discriminate;
      try (intros (? & ? & ? & H & _); discriminate H);
      try (intros ? ? H; discriminate H).
  - destruct b; cbn; repeat split; try discriminate;
      try (intros (? & ? & ? & H & _); discriminate H);
      try (intros ? ? H; discriminate H).
  - unfold batch_analyze_sentiment. cbn [json_truthy].
    destruct (Qeq_bool q 0); cbn; repeat split; try discriminate;
      try (intros (? & ? & ? & H & _); discriminate H);
      try (intros ? ? H; discriminate H).
  - unfold batch_analyze_sentiment.
    cbn [json_truthy json_contains json_subscript].
    destruct (t =? ""); cbn [negb];
      [|destruct (Py.contains "texts" t)]; cbn;
      repeat split; try discriminate;
      try (intros (? & ? & ? & H & _); discriminate H);
      try (intros ? ? H; discriminate H).
  - unfold batch_analyze_sentiment.
    cbn [json_truthy json_contains json_subscript].
    destruct items as [|item items]; cbn [negb];
      [|destruct (existsb (json_is_string "texts") (item :: items))]; cbn;
      repeat split; try discriminate;
      try (intros (? & ? & ? & H & _); discriminate H);
      try (intros ? ? H; discriminate H).
  - rewrite batch_api_object. split; [|split].
    + destruct (lookup "texts" fields)
        as [[| b | q | text | [|item items] | fs]|] eqn:L; cbn [fst];
        split; try discriminate;
        try (intros (fs' & i & its & H & L'); injection H as <-; congruence).
      intros _. now exists fields, item, items.
    + intros fs texts [= <-] L Hne. rewrite L.
      destruct texts as [|item items]; [contradiction|].
      repeat split.
      * apply analyze_all_length.
      * apply strings_of_length.
    + destruct (lookup "texts" fields)
        as [[| b | q | text | [|item items] | fs]|]; cbn [fst snd]; auto.
      intros H. now contradiction H.
Qed.

(** ** Cleaning twice *)

Lemma clean_text_fixed (t : string) :
  all_chars normal_char t = true ->
  Py.startswith " " t = false ->
  last_is_space t = false ->
  Py.contains "  " t = false ->
  any_in (map fst idioms ++ map fst slang_words) t = false ->
  clean_text t = t.
Proof.
  intros Hchars Hstart Hlast Hdouble Hterms.
  unfold any_in in Hterms. rewrite existsb_app in Hterms.
  apply orb_false_iff in Hterms. destruct Hterms as [Hidioms Hslang].
  unfold clean_text.
  rewrite (lower_normal t Hchars).
  unfold _expand_slang_and_idioms. rewrite (lower_normal t Hchars).
  rewrite (expand_with_absent idioms t t Hidioms).
  rewrite (expand_with_absent slang_words t t Hslang).
  rewrite (sub_no_match Re.url_pattern ""
             (fun u => all_chars normal_char u = true)); auto.
  2:{ intros c u Hu. split; [now apply url_pattern_normal|].
      now apply all_chars_cons in Hu. }
  rewrite (sub_no_match Re.email_pattern ""
             (fun u => all_chars normal_char u = true)); auto.
  2:{ intros c u Hu. split; [now apply email_pattern_normal|].
      now apply all_chars_cons in Hu. }
  rewrite (sub_no_match Re.special_chars_pattern " "
             (fun u => all_chars normal_char u = true)); auto.
  2:{ intros c u Hu. apply all_chars_cons in Hu. destruct Hu as [Hc Hu].
      split; [now apply special_chars_pattern_normal | exact Hu]. }
  rewrite (whitespace_sub_normal t Hchars Hdouble).
  now apply strip_normal.
Qed.

(** X13.  Cleaning a cleaned text changes nothing, unless the cleaned text
    contains an idiom or slang term: the expansion is the only step of the
    pipeline before the tokenizer that can act a second time. *)
Theorem clean_text_idempotent (s : string) :
  any_in (map fst idioms ++ map fst slang_words) (clean_text s) = false ->
  clean_text (clean_text s) = clean_text s.
Proof.
  intros Hterms.
  destruct (clean_text_facts s) as (A & B & C & D & _).
  now apply clean_text_fixed.
Qed.

(** ** Rules and the cache *)

Lemma rule_trigger_processed (k : nat) (s p1 p2 : string) :
  k <> 4 -> rule_trigger k s p1 = rule_trigger k s p2.
Proof.
  intros Hk. do 21 (destruct k as [|k]; [try reflexivity; contradiction|]).
  reflexivity.
Qed.

Lemma first_rule_processed (s p1 p2 : string) :
  Py.contains " but " (Py.lower s) = false ->
  Py.contains " however " (Py.lower s) = false ->
  first_rule s p1 = first_rule s p2.
Proof.
  intros Hb Hh. unfold first_rule. apply find_ext_in. intros k.
  destruct (Nat.eq_dec k 4) as [->|N]; [|now apply rule_trigger_processed].
  cbn [rule_trigger]. now rewrite Hb, Hh.
Qed.

Lemma rule_outcome_processed (k : nat) (s p1 p2 : string) :
  let scores r := (neg r, neu r, pos r, compound r, sentiment_label r,
                   confidence r, original_text r) in
  scores (rule_outcome k s p1) = scores (rule_outcome k s p2).
Proof.
  intros scores. unfold rule_outcome, negation_outcome.
  destruct (existsb _ _);
    do 21 (destruct k as [|k]; [reflexivity|]); reflexivity.
Qed.

(** X14.  The chain reads the normalized text in rule 4 only.  For a text
    without " but " and " however ", whether a rule fires and which one does
    not depend on the normalized text; so when a rule fires, the scores,
    label and confidence are the same in every cache state, stale entries
    included, in which the normalized text is not empty. *)
Theorem rule_verdict_ignores_cache (c1 c2 : Dict.t) (s : string) :
  Py.contains " but " (Py.lower s) = false ->
  Py.contains " however " (Py.lower s) = false ->
  (forall p1 p2, first_rule s p1 = first_rule s p2)
  /\ (let r1 := fst (analyze_sentiment c1 (PyStr s)) in
      let r2 := fst (analyze_sentiment c2 (PyStr s)) in
      fst (preprocess_text c1 (PyStr s)) <> "" ->
      fst (preprocess_text c2 (PyStr s)) <> "" ->
      first_rule s "" <> None ->
      (neg r1, neu r1, pos r1, compound r1, sentiment_label r1,
       confidence r1, original_text r1)
      = (neg r2, neu r2, pos r2, compound r2, sentiment_label r2,
         confidence r2, original_text r2)).
Proof.
  intros Hb Hh.
  assert (F : forall p1 p2, first_rule s p1 = first_rule s p2)
    by (intros p1 p2; now apply first_rule_processed).
  split; [exact F|]. intros r1 r2 Hp1 Hp2 Hfire.
  assert (Hs : s <> "").
  { intros ->. apply Hp1. now rewrite preprocess_text_degenerate by (left; reflexivity). }
  destruct (first_rule s "") as [k|] eqn:Fk; [|contradiction].
  assert (E1 : r1 = rule_outcome k s (fst (preprocess_text c1 (PyStr s)))).
  { subst r1. apply analyze_sentiment_rule; auto.
    rewrite enhanced_sentiment_by_rule, (F _ ""), Fk. reflexivity. }
  assert (E2 : r2 = rule_outcome k s (fst (preprocess_text c2 (PyStr s)))).
  { subst r2. apply analyze_sentiment_rule; auto.
    rewrite enhanced_sentiment_by_rule, (F _ ""), Fk. reflexivity. }
  rewrite E1, E2. apply rule_outcome_processed.
Qed.

End Analyzer.

(** * The analyzer on sample inputs

    From here on the analyzer runs with the stand-ins for NLTK. *)

(** Claim C1, counterexample.  Analyzing "coolope" gives the processed text
    "goodope"; normalizing "goodope" in the cache that call left gives
    "gooexcellent", not "goodope". *)
Lemma normalization_not_idempotent :
  processed_text
    (fst (analyze_sentiment sample_word_tokenize sample_lemmatize
            sample_stop_words sample_polarity_scores [] (PyStr "coolope")))
  = Some "goodope"
  /\ fst (preprocess_text sample_word_tokenize sample_lemmatize
            sample_stop_words
            (snd (analyze_sentiment sample_word_tokenize sample_lemmatize
                    sample_stop_words sample_polarity_scores []
                    (PyStr "coolope")))
            (PyStr "goodope"))
     = "gooexcellent"
  /\ "gooexcellent" <> "goodope".
Proof.
  split; [vm_compute; reflexivity|].
  split; [vm_compute; reflexivity | discriminate].
Qed.

Lemma normalization_noop_on_normal_form_witness :
  normal_form sample_word_tokenize sample_lemmatize sample_stop_words
    "good movie"
  /\ (Dict.mem (Py.slice_to 100 "good movie") [] = false
      \/ (reachable sample_word_tokenize sample_lemmatize sample_stop_words []
          /\ String.length "good movie" < 100))
  /\ fst (preprocess_text sample_word_tokenize sample_lemmatize
            sample_stop_words [] (PyStr "good movie"))
     = "good movie".
Proof.
  assert (H1 : normal_form sample_word_tokenize sample_lemmatize
                 sample_stop_words "good movie")
    by (repeat split; vm_compute; reflexivity).
  assert (H2 : Dict.mem (Py.slice_to 100 "good movie") [] = false
               \/ (reachable sample_word_tokenize sample_lemmatize
                     sample_stop_words []
                   /\ String.length "good movie" < 100))
    by (left; reflexivity).
  split; [exact H1 | split; [exact H2|]].
  exact (proj2 (normalization_noop_on_normal_form sample_word_tokenize
                  sample_lemmatize sample_stop_words [] "good movie" H1 H2)).
Defined.

Lemma cache_bound_fifo_eviction_witness :
  let full := preprocess_all sample_word_tokenize sample_lemmatize
                sample_stop_words [] (map PyStr (sample_texts 1000)) in
  let final := preprocess_all sample_word_tokenize sample_lemmatize
                 sample_stop_words [] (map PyStr (sample_texts 1001)) in
  (reachable sample_word_tokenize sample_lemmatize sample_stop_words full
   /\ "a good movie" <> ""
   /\ Dict.mem (Py.slice_to 100 "a good movie") full = false
   /\ 1000 <= List.length full
   /\ List.length (sample_texts 1001) = 1001
   /\ Forall (fun t => t <> "") (sample_texts 1001)
   /\ NoDup (map (Py.slice_to 100) (sample_texts 1001)))
  /\ List.length full <= 1000
  /\ snd (preprocess_text sample_word_tokenize sample_lemmatize
            sample_stop_words full (PyStr "a good movie"))
     = (List.tl full ++ [("a good movie", "good movie")])%list
  /\ List.length final = 1000
  /\ Dict.mem "t1" final = false
  /\ Dict.mem "t2" final = true.
Proof.
  intros full final.
  assert (Hr : reachable sample_word_tokenize sample_lemmatize
                 sample_stop_words full)
    by (apply reachable_preprocess_all; constructor).
  assert (Hs : "a good movie" <> "") by discriminate.
  assert (Hm : Dict.mem (Py.slice_to 100 "a good movie") full = false)
    by (vm_compute; reflexivity).
  assert (Hf : 1000 <= List.length full)
    by (apply Nat.leb_le; vm_compute; reflexivity).
  assert (Hl : List.length (sample_texts 1001) = 1001)
    by (vm_compute; reflexivity).
  assert (Hn : Forall (fun t => t <> "") (sample_texts 1001))
    by (apply all_nonempty_sound; vm_compute; reflexivity).
  assert (Hd : NoDup (map (Py.slice_to 100) (sample_texts 1001)))
    by (apply nodupb_sound; vm_compute; reflexivity).
  destruct (cache_bound_fifo_eviction sample_word_tokenize sample_lemmatize
              sample_stop_words full "a good movie" (sample_texts 1001))
    as [B [E F]].
  split; [repeat split; assumption|].
  split; [exact (B Hr)|].
  split; [exact (E Hr Hs Hm Hf)|].
  destruct (F Hl Hn Hd) as [F1 [_ F3]].
  split; [exact F1|].
  split; [exact F3 | vm_compute; reflexivity].
Defined.

Lemma label_threshold_law_witness :
  "a good movie" <> ""
  /\ _get_enhanced_sentiment "a good movie"
       (fst (preprocess_text sample_word_tokenize sample_lemmatize
               sample_stop_words [] (PyStr "a good movie")))
     = None
  /\ sentiment_label
       (fst (analyze_sentiment sample_word_tokenize sample_lemmatize
               sample_stop_words sample_polarity_scores []
               (PyStr "a good movie")))
     = positive.
Proof.
  assert (H1 : "a good movie" <> "") by discriminate.
  assert (H2 : _get_enhanced_sentiment "a good movie"
                 (fst (preprocess_text sample_word_tokenize sample_lemmatize
                         sample_stop_words [] (PyStr "a good movie")))
               = None)
    by (vm_compute; reflexivity).
  split; [exact H1 | split; [exact H2|]].
  destruct (label_threshold_law sample_word_tokenize sample_lemmatize
              sample_stop_words sample_polarity_scores [] "a good movie"
              H1 H2) as [_ [Hlaw _]].
  destruct Hlaw as [Hpos _]; [vm_compute; discriminate|].
  apply Hpos. vm_compute. discriminate.
Defined.

(** Claim C4, counterexample.  A text that is one URL matches the sarcasm
    pattern "exactly.*wanted" and contains the slang word "lit", but its
    normalization is empty: [analyze_sentiment] returns the zero-valued
    neutral result, not rule 1's vector. *)
Lemma sarcasm_precedence_counterexample :
  (_detect_sarcasm "http://exactly-wanted-lit" <? 0)%Z = true
  /\ any_in ["goat"; "sick"; "lit"; "fire"]
       (Py.lower "http://exactly-wanted-lit") = true
  /\ fst (analyze_sentiment sample_word_tokenize sample_lemmatize
            sample_stop_words sample_polarity_scores []
            (PyStr "http://exactly-wanted-lit"))
     = mkResult 0 0 0 0 neutral 0 None None
  /\ sentiment_label
       (fst (analyze_sentiment sample_word_tokenize sample_lemmatize
               sample_stop_words sample_polarity_scores []
               (PyStr "http://exactly-wanted-lit")))
     <> negative.
Proof.
  repeat split; try (vm_compute; reflexivity).
  vm_compute. discriminate.
Qed.

Lemma sarcasm_rule_precedes_slang_witness :
  let s := "Oh great, another flight delay. This is lit" in
  let p := fst (preprocess_text sample_word_tokenize sample_lemmatize
                  sample_stop_words [] (PyStr s)) in
  rule_trigger 1 s p = true
  /\ rule_trigger 16 s p = true
  /\ p <> ""
  /\ fst (analyze_sentiment sample_word_tokenize sample_lemmatize
            sample_stop_words sample_polarity_scores [] (PyStr s))
     = result_dict 0.8 0.1 0.1 (-0.7) negative 0.7 (PyStr s)
         "oh great, another flight delay. excellent".
Proof.
  intros s p.
  assert (H1 : rule_trigger 1 s p = true) by (vm_compute; reflexivity).
  assert (H16 : rule_trigger 16 s p = true) by (vm_compute; reflexivity).
  assert (Hp : p <> "") by (vm_compute; discriminate).
  split; [exact H1 | split; [exact H16 | split; [exact Hp|]]].
  destruct (sarcasm_rule_precedes_slang sample_word_tokenize sample_lemmatize
              sample_stop_words sample_polarity_scores [] s p)
    as [_ Hrule].
  destruct (Hrule H1 H16) as [_ [_ Hana]].
  exact (proj1 (Hana Hp)).
Defined.

Lemma degenerate_input_asymmetry_witness :
  (truthy PyNone = false \/ isinstance_str PyNone = false)
  /\ "the" <> ""
  /\ fst (preprocess_text sample_word_tokenize sample_lemmatize
            sample_stop_words [] (PyStr "the")) = ""
  /\ analyze_sentiment sample_word_tokenize sample_lemmatize
       sample_stop_words sample_polarity_scores [] PyNone
     = (mkResult 0 0 0 0 neutral 0 (Some PyNone) (Some ""), [])
  /\ original_text
       (fst (analyze_sentiment sample_word_tokenize sample_lemmatize
               sample_stop_words sample_polarity_scores [] (PyStr "the")))
     = None.
Proof.
  assert (H1 : truthy PyNone = false \/ isinstance_str PyNone = false)
    by (left; reflexivity).
  assert (H2 : "the" <> "") by discriminate.
  assert (H3 : fst (preprocess_text sample_word_tokenize sample_lemmatize
                      sample_stop_words [] (PyStr "the")) = "")
    by (vm_compute; reflexivity).
  destruct (degenerate_input_asymmetry sample_word_tokenize sample_lemmatize
              sample_stop_words sample_polarity_scores [] PyNone "the")
    as [A B].
  split; [exact H1 | split; [exact H2 | split; [exact H3|]]].
  split; [exact (A H1)|].
  exact (proj1 (proj2 (B H2 H3))).
Defined.

Lemma score_sum_invariant_witness :
  "a good movie" <> ""
  /\ fst (preprocess_text sample_word_tokenize sample_lemmatize
            sample_stop_words [] (PyStr "a good movie")) <> ""
  /\ (score_neg (sample_polarity_scores "good movie")
      + score_neu (sample_polarity_scores "good movie")
      + score_pos (sample_polarity_scores "good movie") == 1)%Q
  /\ (let r := fst (analyze_sentiment sample_word_tokenize sample_lemmatize
                      sample_stop_words sample_polarity_scores []
                      (PyStr "a good movie")) in
      py_round (neg r + neu r + pos r) 2 == 1)%Q.
Proof.
  assert (H1 : "a good movie" <> "") by discriminate.
  assert (H2 : fst (preprocess_text sample_word_tokenize sample_lemmatize
                      sample_stop_words [] (PyStr "a good movie")) <> "")
    by (vm_compute; discriminate).
  assert (H3 : (score_neg (sample_polarity_scores "good movie")
                + score_neu (sample_polarity_scores "good movie")
                + score_pos (sample_polarity_scores "good movie") == 1)%Q)
    by (vm_compute; reflexivity).
  split; [exact H1 | split; [exact H2 | split; [exact H3|]]].
  exact (score_sum_invariant sample_word_tokenize sample_lemmatize
           sample_stop_words sample_polarity_scores [] "a good movie"
           H1 H2 H3).
Defined.

(** Claim C7, counterexample.  One analyzer is asked about the same text
    twice, with 1001 other calls in between: 1000 calls on new keys, which
    push the text's entry out of the cache, and one call on a text with the
    same first 100 characters, which stores its own normalization under the
    shared key.  The first answer is mixed (the aspect rule sees "good" and
    "bad" in the normalized text), the second comes from the scorer, run on
    the other text's normalization. *)
Lemma repeated_call_counterexample :
  let text := PyStr (long_prefix ++ " good but bad") in
  let between :=
    map PyStr (sample_texts 1000 ++ [(long_prefix ++ " fine")%string])%list in
  let first := analyze_sentiment sample_word_tokenize sample_lemmatize
                 sample_stop_words sample_polarity_scores [] text in
  let later := analyze_all sample_word_tokenize sample_lemmatize
                 sample_stop_words sample_polarity_scores (snd first)
                 between in
  let second := analyze_sentiment sample_word_tokenize sample_lemmatize
                  sample_stop_words sample_polarity_scores (snd later)
                  text in
  sentiment_label (fst first) = mixed
  /\ sentiment_label (fst second) = neutral
  /\ fst second <> fst first.
Proof.
  vm_compute. repeat split; discriminate.
Qed.

Lemma repeated_call_determinism_witness :
  let cache' := preprocess_all sample_word_tokenize sample_lemmatize
                  sample_stop_words [] (map PyStr (sample_texts 5)) in
  reachable sample_word_tokenize sample_lemmatize sample_stop_words []
  /\ reachable sample_word_tokenize sample_lemmatize sample_stop_words cache'
  /\ (forall s, PyStr "a good movie" = PyStr s -> String.length s < 100)
  /\ fst (analyze_sentiment sample_word_tokenize sample_lemmatize
            sample_stop_words sample_polarity_scores [] (PyStr "a good movie"))
     = fst (analyze_sentiment sample_word_tokenize sample_lemmatize
              sample_stop_words sample_polarity_scores cache'
              (PyStr "a good movie")).
Proof.
  intros cache'.
  assert (H1 : reachable sample_word_tokenize sample_lemmatize
                 sample_stop_words []) by constructor.
  assert (H2 : reachable sample_word_tokenize sample_lemmatize
                 sample_stop_words cache')
    by (apply reachable_preprocess_all; constructor).
  assert (H3 : forall s, PyStr "a good movie" = PyStr s ->
                         String.length s < 100).
  { intros s E. injection E as <-. apply Nat.ltb_lt. reflexivity. }
  split; [exact H1 | split; [exact H2 | split; [exact H3|]]].
  exact (proj2 (repeated_call_determinism sample_word_tokenize
                  sample_lemmatize sample_stop_words sample_polarity_scores
                  [] cache' (PyStr "a good movie")) H1 H2 H3).
Defined.

Lemma cache_hit_short_circuit_witness :
  let s := long_prefix ++ " good" in
  let s' := long_prefix ++ " bad" in
  let cache := [(long_prefix, "stale")] in
  (s <> "" /\ s' <> "" /\ s <> s'
   /\ Dict.get (Py.slice_to 100 s) cache = Some "stale"
   /\ Py.slice_to 100 s = Py.slice_to 100 s')
  /\ preprocess_text sample_word_tokenize sample_lemmatize sample_stop_words
       cache (PyStr s) = ("stale", cache)
  /\ fst (preprocess_text sample_word_tokenize sample_lemmatize
            sample_stop_words
            (snd (preprocess_text sample_word_tokenize sample_lemmatize
                    sample_stop_words [] (PyStr s)))
            (PyStr s'))
     = long_prefix ++ " good".
Proof.
  intros s s' cache.
  assert (H1 : s <> "") by (vm_compute; discriminate).
  assert (H2 : s' <> "") by (vm_compute; discriminate).
  assert (H3 : s <> s') by (vm_compute; discriminate).
  assert (H4 : Dict.get (Py.slice_to 100 s) cache = Some "stale")
    by (vm_compute; reflexivity).
  assert (H5 : Py.slice_to 100 s = Py.slice_to 100 s')
    by (vm_compute; reflexivity).
  split; [repeat split; assumption|].
  split.
  - exact (proj1 (cache_hit_short_circuit sample_word_tokenize
                    sample_lemmatize sample_stop_words cache s s' "stale")
             H1 H4).
  - pose proof (proj2 (cache_hit_short_circuit sample_word_tokenize
                         sample_lemmatize sample_stop_words [] s s' "stale")
                  H1 H2 H3 H5) as H.
    destruct (preprocess_text sample_word_tokenize sample_lemmatize
                sample_stop_words [] (PyStr s)) as [r cache1] eqn:E.
    cbn [snd]. rewrite H. cbn [fst].
    apply (f_equal fst) in E. cbn [fst] in E. rewrite <- E.
    vm_compute. reflexivity.
Defined.

Lemma substring_triggers_witness :
  fst (preprocess_text sample_word_tokenize sample_lemmatize
         sample_stop_words [] (PyStr "literally")) <> ""
  /\ fst (preprocess_text sample_word_tokenize sample_lemmatize
            sample_stop_words [] (PyStr "messages")) <> ""
  /\ fst (analyze_sentiment sample_word_tokenize sample_lemmatize
            sample_stop_words sample_polarity_scores [] (PyStr "literally"))
     = result_dict 0.1 0.1 0.8 0.7 positive 0.7 (PyStr "literally")
         "excellenterally"
  /\ fst (analyze_sentiment sample_word_tokenize sample_lemmatize
            sample_stop_words sample_polarity_scores [] (PyStr "messages"))
     = result_dict 0.8 0.1 0.1 (-0.7) negative 0.7 (PyStr "messages")
         "messlong time".
Proof.
  assert (H1 : fst (preprocess_text sample_word_tokenize sample_lemmatize
                      sample_stop_words [] (PyStr "literally")) <> "")
    by (vm_compute; discriminate).
  assert (H2 : fst (preprocess_text sample_word_tokenize sample_lemmatize
                      sample_stop_words [] (PyStr "messages")) <> "")
    by (vm_compute; discriminate).
  destruct (substring_triggers sample_word_tokenize sample_lemmatize
              sample_stop_words sample_polarity_scores [] "")
    as [_ [_ [_ [_ [L M]]]]].
  split; [exact H1 | split; [exact H2|]].
  split; [exact (L H1) | exact (M H2)].
Defined.

Lemma degenerate_results_sum_to_zero_witness :
  (truthy (PyStr "the") = false \/ isinstance_str (PyStr "the") = false
   \/ fst (preprocess_text sample_word_tokenize sample_lemmatize
             sample_stop_words [] (PyStr "the")) = "")
  /\ (let r := fst (analyze_sentiment sample_word_tokenize sample_lemmatize
                      sample_stop_words sample_polarity_scores []
                      (PyStr "the")) in
      neg r + neu r + pos r == 0)%Q.
Proof.
  assert (H : truthy (PyStr "the") = false
              \/ isinstance_str (PyStr "the") = false
              \/ fst (preprocess_text sample_word_tokenize sample_lemmatize
                        sample_stop_words [] (PyStr "the")) = "")
    by (right; right; vm_compute; reflexivity).
  split; [exact H|].
  exact (proj1 (proj2 (proj2 (proj2 (proj2 (proj2
    (degenerate_results_sum_to_zero sample_word_tokenize sample_lemmatize
       sample_stop_words sample_polarity_scores [] (PyStr "the") H))))))).
Defined.


(** * Further properties on sample inputs *)

Lemma negation_words_order_irrelevant_witness :
  Permutation (rev negation_words) negation_words
  /\ negation_loop (rev negation_words) (Py.lower "This is NOT GOOD")
     = Some "bad".
Proof.
  assert (H : Permutation (rev negation_words) negation_words)
    by (apply Permutation_sym, Permutation_rev).
  split; [exact H|].
  rewrite (proj2 (negation_words_order_irrelevant (rev negation_words)
                    "This is NOT GOOD" H)).
  vm_compute. reflexivity.
Defined.

Lemma negation_verdicts_witness :
  (_handle_negation "The movie was not bad at all" = Some "good"
   /\ first_rule "The movie was not bad at all" "movie bad" = Some 2
   /\ first_rule "This is not good" "good" = Some 3)
  /\ _get_enhanced_sentiment "The movie was not bad at all" "movie bad"
     = Some (positive_dict "The movie was not bad at all" "movie bad")
  /\ _get_enhanced_sentiment "This is not good" "good"
     = Some (negative_dict "This is not good" "good").
Proof.
  assert (H1 : _handle_negation "The movie was not bad at all" = Some "good")
    by (vm_compute; reflexivity).
  assert (H2 : first_rule "The movie was not bad at all" "movie bad" = Some 2)
    by (vm_compute; reflexivity).
  assert (H3 : first_rule "This is not good" "good" = Some 3)
    by (vm_compute; reflexivity).
  split; [repeat split; assumption|].
  split.
  - exact (proj1 (proj2 (negation_verdicts "The movie was not bad at all"
                           "movie bad" "good")) H2).
  - exact (proj2 (proj2 (negation_verdicts "This is not good" "good" "bad"))
             H3).
Defined.


Lemma sample_tokens_chars (t : string) :
  all_chars normal_char t = true ->
  Forall (fun w => all_chars normal_char w = true) (sample_word_tokenize t).
Proof. intros H. now apply split_from_chars. Qed.

Lemma processed_text_chars_witness :
  let text :=
    PyStr "Hello World! This is a TEST... with URLs: https://example.com and emails: test@example.com" in
  (forall t, all_chars normal_char t = true ->
     Forall (fun w => all_chars normal_char w = true)
            (sample_word_tokenize t))
  /\ (forall w, all_chars normal_char w = true ->
        all_chars normal_char (sample_lemmatize w) = true)
  /\ reachable sample_word_tokenize sample_lemmatize sample_stop_words []
  /\ fst (preprocess_text sample_word_tokenize sample_lemmatize
            sample_stop_words [] text)
     = "hello world! test... urls: emails:"
  /\ Py.contains "@"
       (fst (preprocess_text sample_word_tokenize sample_lemmatize
               sample_stop_words [] text)) = false.
Proof.
  intros text.
  assert (H1 : forall t, all_chars normal_char t = true ->
            Forall (fun w => all_chars normal_char w = true)
                   (sample_word_tokenize t))
    by exact sample_tokens_chars.
  assert (H2 : forall w, all_chars normal_char w = true ->
            all_chars normal_char (sample_lemmatize w) = true)
    by (intros w H; exact H).
  assert (H3 : reachable sample_word_tokenize sample_lemmatize
                 sample_stop_words []) by constructor.
  split; [exact H1 | split; [exact H2 | split; [exact H3|]]].
  split; [vm_compute; reflexivity|].
  exact (proj1 (proj2 (processed_text_chars sample_word_tokenize
                         sample_lemmatize sample_stop_words [] text
                         H1 H2 H3))).
Defined.

Lemma cache_entries_invariant_witness :
  let cache := preprocess_all sample_word_tokenize sample_lemmatize
                 sample_stop_words []
                 [PyStr "a good movie"; PyStr "literally"] in
  (reachable sample_word_tokenize sample_lemmatize sample_stop_words cache
   /\ In ("literally", "excellenterally") cache)
  /\ NoDup (Dict.keys cache)
  /\ Dict.get "literally" cache = Some "excellenterally".
Proof.
  intros cache.
  assert (H1 : reachable sample_word_tokenize sample_lemmatize
                 sample_stop_words cache)
    by (apply reachable_preprocess_all; constructor).
  assert (H2 : In ("literally", "excellenterally") cache)
    by (vm_compute; right; left; reflexivity).
  split; [split; assumption|].
  destruct (cache_entries_invariant sample_word_tokenize sample_lemmatize
              sample_stop_words cache "literally" "excellenterally" H1)
    as [Hnd Hent].
  split; [exact Hnd|].
  exact (proj1 (proj2 (proj2 (Hent H2)))).
Defined.

Lemma entry_survives_999_calls_witness :
  let s := long_prefix ++ " good but bad" in
  let texts := map PyStr (sample_texts 999) in
  (reachable sample_word_tokenize sample_lemmatize sample_stop_words []
   /\ s <> ""
   /\ Dict.mem (Py.slice_to 100 s) [] = false
   /\ List.length texts <= 999)
  /\ sentiment_label
       (fst (analyze_sentiment sample_word_tokenize sample_lemmatize
               sample_stop_words sample_polarity_scores
               (snd (analyze_all sample_word_tokenize sample_lemmatize
                       sample_stop_words sample_polarity_scores
                       (snd (analyze_sentiment sample_word_tokenize
                               sample_lemmatize sample_stop_words
                               sample_polarity_scores [] (PyStr s)))
                       texts))
               (PyStr s)))
     = mixed.
Proof.
  intros s texts.
  assert (H1 : reachable sample_word_tokenize sample_lemmatize
                 sample_stop_words []) by constructor.
  assert (H2 : s <> "") by (vm_compute; discriminate).
  assert (H3 : Dict.mem (Py.slice_to 100 s) [] = false) by reflexivity.
  assert (H4 : List.length texts <= 999)
    by (apply Nat.leb_le; vm_compute; reflexivity).
  split; [repeat split; assumption|].
  rewrite (proj2 (entry_survives_999_calls sample_word_tokenize
                    sample_lemmatize sample_stop_words
                    sample_polarity_scores [] s texts H1 H2 H3 H4)).
  vm_compute. reflexivity.
Defined.

Lemma label_agrees_with_compound_witness :
  let r := fst (analyze_sentiment sample_word_tokenize sample_lemmatize
                  sample_stop_words sample_polarity_scores []
                  (PyStr "a good movie")) in
  sentiment_label r = positive /\ (0.05 <= compound r)%Q.
Proof.
  intros r.
  assert (H : sentiment_label r = positive) by (vm_compute; reflexivity).
  split; [exact H|].
  exact (proj1 (label_agrees_with_compound sample_word_tokenize
                  sample_lemmatize sample_stop_words sample_polarity_scores
                  [] (PyStr "a good movie")) H).
Defined.

Lemma sample_scores_in_range (t : string) :
  (0 <= score_neg (sample_polarity_scores t) <= 1)%Q
  /\ (0 <= score_neu (sample_polarity_scores t) <= 1)%Q
  /\ (0 <= score_pos (sample_polarity_scores t) <= 1)%Q
  /\ (-1 <= score_compound (sample_polarity_scores t) <= 1)%Q.
Proof.
  unfold sample_polarity_scores.
  destruct (Py.contains "good" t); [|destruct (Py.contains "bad" t)];
    cbn; repeat split; lra.
Qed.

Lemma result_fields_in_range_witness :
  (forall t,
     (0 <= score_neg (sample_polarity_scores t) <= 1)%Q
     /\ (0 <= score_neu (sample_polarity_scores t) <= 1)%Q
     /\ (0 <= score_pos (sample_polarity_scores t) <= 1)%Q
     /\ (-1 <= score_compound (sample_polarity_scores t) <= 1)%Q)
  /\ (let r := fst (analyze_sentiment sample_word_tokenize sample_lemmatize
                      sample_stop_words sample_polarity_scores []
                      (PyStr "a bad movie")) in
      (-1 <= compound r <= 1)%Q /\ (0 <= confidence r <= 1)%Q).
Proof.
  split; [exact sample_scores_in_range|].
  destruct (result_fields_in_range sample_word_tokenize sample_lemmatize
              sample_stop_words sample_polarity_scores []
              (PyStr "a bad movie") sample_scores_in_range)
    as (_ & _ & _ & C & F).
  split; [exact C | exact F].
Defined.

Lemma result_echoes_texts_witness :
  let r := fst (analyze_sentiment sample_word_tokenize sample_lemmatize
                  sample_stop_words sample_polarity_scores []
                  (PyStr "The Plot")) in
  original_text r = Some (PyStr "The Plot")
  /\ processed_text r = Some "plot"
  /\ "plot" = fst (preprocess_text sample_word_tokenize sample_lemmatize
                     sample_stop_words [] (PyStr "The Plot")).
Proof.
  intros r.
  assert (H1 : original_text r = Some (PyStr "The Plot"))
    by (vm_compute; reflexivity).
  assert (H2 : processed_text r = Some "plot") by (vm_compute; reflexivity).
  split; [exact H1 | split; [exact H2|]].
  exact (proj1 (proj2 (proj2 (result_echoes_texts sample_word_tokenize
                                sample_lemmatize sample_stop_words
                                sample_polarity_scores []
                                (PyStr "The Plot")))) "plot" H2).
Defined.

Lemma analyze_api_status_witness :
  let data := JObject [("lang", JString "en"); ("text", JString "literally")] in
  (lookup "text" [("lang", JString "en"); ("text", JString "literally")]
   = Some (JString "literally"))
  /\ fst (analyze_sentiment_api sample_word_tokenize sample_lemmatize
            sample_stop_words sample_polarity_scores [] data)
     = (200, BodyResult
               (result_dict 0.1 0.1 0.8 0.7 positive 0.7 (PyStr "literally")
                  "excellenterally"))
  /\ fst (fst (analyze_sentiment_api sample_word_tokenize sample_lemmatize
                 sample_stop_words sample_polarity_scores []
                 (JString "some text")))
     = 500.
Proof.
  intros data.
  assert (H : lookup "text"
                [("lang", JString "en"); ("text", JString "literally")]
              = Some (JString "literally")) by reflexivity.
  split; [exact H|].
  split.
  - rewrite (proj1 (proj2 (proj2 (analyze_api_status sample_word_tokenize
                sample_lemmatize sample_stop_words sample_polarity_scores
                [] data))) _ _ eq_refl H).
    vm_compute. reflexivity.
  - apply (proj1 (proj2 (proj2 (proj2 (analyze_api_status
              sample_word_tokenize sample_lemmatize sample_stop_words
              sample_polarity_scores [] (JString "some text")))))).
    right. right. left. exists "some text". split; reflexivity.
Defined.

Lemma batch_api_outcome_witness :
  let texts := [JString "a good movie"; JNumber 7; JString "a bad movie"] in
  let data := JObject [("texts", JArray texts)] in
  (lookup "texts" [("texts", JArray texts)] = Some (JArray texts)
   /\ texts <> [])
  /\ (let out := batch_analyze_sentiment sample_word_tokenize
                   sample_lemmatize sample_stop_words sample_polarity_scores
                   "2026-01-01T00:00:00" [] data in
      match fst out with
      | (200, BodyBatch results total _) =>
          map sentiment_label results = [positive; negative] /\ total = 2
      | _ => False
      end).
Proof.
  intros texts data.
  assert (H1 : lookup "texts" [("texts", JArray texts)] = Some (JArray texts))
    by reflexivity.
  assert (H2 : texts <> []) by discriminate.
  split; [split; assumption|].
  rewrite (proj1 (proj1 (proj2 (batch_api_outcome sample_word_tokenize
              sample_lemmatize sample_stop_words sample_polarity_scores
              "2026-01-01T00:00:00" [] data)) _ _ eq_refl H1 H2)).
  vm_compute. split; reflexivity.
Defined.

Lemma clean_text_idempotent_witness :
  any_in (map fst idioms ++ map fst slang_words)
         (clean_text "Visit https://example.com NOW, it is  great!") = false
  /\ clean_text "Visit https://example.com NOW, it is  great!"
     = "visit now, it is great!"
  /\ clean_text (clean_text "Visit https://example.com NOW, it is  great!")
     = clean_text "Visit https://example.com NOW, it is  great!".
Proof.
  assert (H : any_in (map fst idioms ++ map fst slang_words)
                (clean_text "Visit https://example.com NOW, it is  great!")
              = false) by (vm_compute; reflexivity).
  split; [exact H | split; [vm_compute; reflexivity|]].
  exact (clean_text_idempotent _ H).
Defined.

Lemma rule_verdict_ignores_cache_witness :
  let s := long_prefix ++ " letdown" in
  let stale := [(long_prefix, "something else")] in
  (Py.contains " but " (Py.lower s) = false
   /\ Py.contains " however " (Py.lower s) = false
   /\ fst (preprocess_text sample_word_tokenize sample_lemmatize
             sample_stop_words stale (PyStr s)) <> ""
   /\ fst (preprocess_text sample_word_tokenize sample_lemmatize
             sample_stop_words [] (PyStr s)) <> ""
   /\ first_rule s "" <> None)
  /\ (let r1 := fst (analyze_sentiment sample_word_tokenize sample_lemmatize
                       sample_stop_words sample_polarity_scores stale
                       (PyStr s)) in
      let r2 := fst (analyze_sentiment sample_word_tokenize sample_lemmatize
                       sample_stop_words sample_polarity_scores []
                       (PyStr s)) in
      (neg r1, neu r1, pos r1, compound r1, sentiment_label r1,
       confidence r1, original_text r1)
      = (neg r2, neu r2, pos r2, compound r2, sentiment_label r2,
         confidence r2, original_text r2))
  /\ processed_text
       (fst (analyze_sentiment sample_word_tokenize sample_lemmatize
               sample_stop_words sample_polarity_scores stale (PyStr s)))
     = Some "something else".
Proof.
  intros s stale.
  assert (H1 : Py.contains " but " (Py.lower s) = false)
    by (vm_compute; reflexivity).
  assert (H2 : Py.contains " however " (Py.lower s) = false)
    by (vm_compute; reflexivity).
  assert (H3 : fst (preprocess_text sample_word_tokenize sample_lemmatize
                      sample_stop_words stale (PyStr s)) <> "")
    by (vm_compute; discriminate).
  assert (H4 : fst (preprocess_text sample_word_tokenize sample_lemmatize
                      sample_stop_words [] (PyStr s)) <> "")
    by (vm_compute; discriminate).
  assert (H5 : first_rule s "" <> None) by (vm_compute; discriminate).
  split; [repeat split; assumption|].
  split; [|vm_compute; reflexivity].
  exact (proj2 (rule_verdict_ignores_cache sample_word_tokenize
                  sample_lemmatize sample_stop_words
                  sample_polarity_scores stale [] s H1 H2)
           H3 H4 H5).
Defined.
